(** * Expense manager: currency table, wallets and the reporting engine

    A shallow embedding of [expense_manager/currency.py], [models.py],
    [manager.py] and the data of [sample_data.py], with the properties of
    the conversion, of the wallet registry and of the two reports.

    - Python [float] is IEEE-754 binary64: amounts, balances and rates are
      values of Rocq's primitive [float], and [+ - * /] are the primitive
      binary64 operations (round to nearest even), so the embedding computes
      the very numbers the program computes. The integer literals of the
      tests ([1000], [120]) are read as the floats they denote.
    - Python [str] is [string]; [==] on strings is [String.eqb]. [str.lower]
      is a parameter of the manager.
    - A Python [dict] is an association list in insertion order: a key is
      looked up by its first occurrence, an assignment to an existing key
      keeps the key's position, a new key goes to the end.
    - A raised exception is the [Raise] result; the constructors of [error]
      are the exception classes of the program, with the argument that the
      message is built from.
    - A method of the manager is a function from the state to a result and
      the state it leaves, so that a raise after a write would show. *)

From Stdlib Require Import List String Ascii Bool ZArith QArith Qabs Qpower Lia Lqa.
From Stdlib Require Import Floats.
Import ListNotations.

Close Scope Q_scope.

Set Warnings "-inexact-float,-register-all".

Local Open Scope string_scope.
Local Open Scope list_scope.

(** ** Exceptions and results *)

Inductive error : Type :=
| CurrencyNotSupportedError (currency : string)
| WalletExistsError (name : string)
| WalletNotFoundError (name : string)
| KeyError (key : string)
| TypeError.

Inductive result (A : Type) : Type :=
| Ok (a : A)
| Raise (e : error).

Arguments Ok {A} a.
Arguments Raise {A} e.

Definition result_bind {A B : Type} (c : result A) (k : A -> result B) : result B :=
  match c with
  | Ok a => k a
  | Raise e => Raise e
  end.

Declare Scope result_scope.
Delimit Scope result_scope with result.
Notation "x <- c ;; k" := (result_bind c (fun x => k))
  (at level 61, c at next level, right associativity) : result_scope.
Notation "c ;;; k" := (result_bind c (fun _ => k))
  (at level 61, right associativity) : result_scope.

(** ** Python dictionaries, in insertion order *)

Module Dict.

Section Ops.
Context {V : Type}.

(** [d.get(key)] *)
Fixpoint get (d : list (string * V)) (key : string) : option V :=
  match d with
  | [] => None
  | (k, v) :: rest => if String.eqb key k then Some v else get rest key
  end.

(** [key in d] *)
Definition contains (d : list (string * V)) (key : string) : bool :=
  match get d key with
  | Some _ => true
  | None => false
  end.

(** [d[key]], which raises [KeyError] on a missing key *)
Definition getitem (d : list (string * V)) (key : string) : result V :=
  match get d key with
  | Some v => Ok v
  | None => Raise (KeyError key)
  end.

(** [d[key] = v] *)
Fixpoint set (d : list (string * V)) (key : string) (v : V) : list (string * V) :=
  match d with
  | [] => [(key, v)]
  | (k, v') :: rest =>
      if String.eqb key k then (k, v) :: rest else (k, v') :: set rest key v
  end.

(** [d.keys()] and [d.values()] *)
Definition keys (d : list (string * V)) : list string := map fst d.
Definition values (d : list (string * V)) : list V := map snd d.
End Ops.

End Dict.

(** ** currency.py *)

Module Currency.

Definition SUPPORTED_CURRENCIES : list (string * float) :=
  [ ("USD", 1.0%float);
    ("EUR", 0.92%float);
    ("GBP", 0.81%float);
    ("JPY", 140.0%float);
    ("AUD", 1.5%float) ].

Definition BASE_CURRENCY : string := "USD".

Definition validate_currency (currency : string) : result unit :=
  if negb (Dict.contains SUPPORTED_CURRENCIES currency)
  then Raise (CurrencyNotSupportedError currency)
  else Ok tt.

Definition convert (amount : float) (from_currency to_currency : string)
  : result float :=
  (validate_currency from_currency ;;;
   validate_currency to_currency ;;;
   if String.eqb from_currency to_currency then Ok amount
   else
     from_rate <- Dict.getitem SUPPORTED_CURRENCIES from_currency ;;
     let amount_in_base := (amount / from_rate)%float in
     to_rate <- Dict.getitem SUPPORTED_CURRENCIES to_currency ;;
     Ok (amount_in_base * to_rate)%float)%result.

Definition list_supported_currencies : list (string * float) :=
  SUPPORTED_CURRENCIES.

(** The fixed set of codes, as the specification names it. *)
Definition supported (c : string) : Prop :=
  In c ["USD"; "EUR"; "GBP"; "JPY"; "AUD"].

End Currency.

(** ** models.py *)

Module Models.

Record Expense : Type := {
  description : string;
  amount : float;
  category : string
}.

Record Wallet : Type := {
  name : string;
  currency : string;
  balance : float;
  expenses : list Expense
}.

(** [Wallet.add_expense]: [self.expenses.append(expense)], then
    [self.balance -= expense.amount]. The wallet after the call. *)
Definition add_expense (self : Wallet) (expense : Expense) : Wallet :=
  {| name := name self;
     currency := currency self;
     balance := (balance self - amount expense)%float;
     expenses := expenses self ++ [expense] |}.

(** The builtin [sum(iterable)]: the items are added from left to right,
    starting from [0]. (From version 3.12 on, CPython adds floats with a
    compensation term; the total can then differ from this one in the last
    bit when a partial sum is inexact.) *)
Definition sum (items : list float) : float :=
  fold_left PrimFloat.add items 0%float.

Definition total_spent (self : Wallet) : float :=
  sum (map amount (expenses self)).

End Models.

(** ** Plain nested data: what [json.load] returns and [json.dump] takes *)

Inductive json : Type :=
| JNull
| JNum (x : float)
| JStr (s : string)
| JList (items : list json)
| JDict (items : list (string * json)).

Module Json.

(** Truth value of a plain datum, as [or] tests it. *)
Definition truthy (v : json) : bool :=
  match v with
  | JNull => false
  | JNum x => negb (PrimFloat.eqb x 0%float)
  | JStr s => negb (String.eqb s "")
  | JList items => match items with [] => false | _ => true end
  | JDict items => match items with [] => false | _ => true end
  end.

(** [v[key]]: [KeyError] when the mapping has no such key. *)
Definition getitem (v : json) (key : string) : result json :=
  match v with
  | JDict items => Dict.getitem items key
  | _ => Raise TypeError
  end.

(** [v.get(key, default)] *)
Definition get (v : json) (key : string) (default : json) : result json :=
  match v with
  | JDict items =>
      match Dict.get items key with
      | Some x => Ok x
      | None => Ok default
      end
  | _ => Raise TypeError
  end.

(** The annotations of the program ([name: str], [balance: float],
    [List[Dict]]) fix the type of every field read from a snapshot. The
    embedding is typed accordingly: a datum of another type is outside the
    model and is turned away with [TypeError] where it is read. *)
Definition as_str (v : json) : result string :=
  match v with JStr s => Ok s | _ => Raise TypeError end.

Definition as_num (v : json) : result float :=
  match v with JNum x => Ok x | _ => Raise TypeError end.

Definition as_list (v : json) : result (list json) :=
  match v with JList items => Ok items | _ => Raise TypeError end.

End Json.

(** ** Report structures of manager.py

    The reports are dictionaries with fixed keys; each is a record whose
    fields carry the keys' names. *)

Module WalletSummary.
Record t : Type := {
  name : string;
  currency : string;
  balance : float;
  balance_in_target : float;
  total_spent : float;
  total_spent_in_target : float
}.
End WalletSummary.

Module Dashboard.
Record t : Type := {
  target_currency : string;
  total_balance : float;
  total_spent : float;
  net_position : float;
  wallets : list WalletSummary.t;
  supported_currencies : list (string * float)
}.
End Dashboard.

Module ExpenseLine.
Record t : Type := {
  description : string;
  amount : float;
  category : string;
  amount_in_target : float
}.
End ExpenseLine.

Module WalletReport.
Record t : Type := {
  wallet : string;
  wallet_currency : string;
  balance : float;
  balance_in_target : float;
  expenses : list ExpenseLine.t;
  target_currency : string
}.
End WalletReport.

(** ** manager.py *)

Module Manager.

Import Models.

(** The state of an [ExpenseManager]: its [wallets] dictionary, from
    lower-cased name to wallet. *)
Record ExpenseManager : Type := {
  wallets : list (string * Wallet)
}.

(** A method of the manager runs on the state and leaves a state behind,
    also when it raises: an exception does not undo what was written before
    it. *)
Definition M (A : Type) : Type := ExpenseManager -> result A * ExpenseManager.

Definition ret {A : Type} (a : A) : M A := fun self => (Ok a, self).

Definition raise {A : Type} (e : error) : M A := fun self => (Raise e, self).

Definition bind {A B : Type} (c : M A) (k : A -> M B) : M B :=
  fun self =>
    match c self with
    | (Ok a, self') => k a self'
    | (Raise e, self') => (Raise e, self')
    end.

(** A call of a function that does not touch the manager. *)
Definition lift {A : Type} (r : result A) : M A := fun self => (r, self).

(** [self.wallets] read, and [self.wallets[key] = wallet]. *)
Definition read_wallets : M (list (string * Wallet)) :=
  fun self => (Ok (wallets self), self).

Definition store_wallet (key : string) (wallet : Wallet) : M unit :=
  fun self => (Ok tt, {| wallets := Dict.set (wallets self) key wallet |}).

Declare Scope manager_scope.
Delimit Scope manager_scope with manager.
Notation "x <- c ;; k" := (bind c (fun x => k))
  (at level 61, c at next level, right associativity) : manager_scope.
Notation "c ;;; k" := (bind c (fun _ => k))
  (at level 61, right associativity) : manager_scope.

Section WithLower.

(** [str.lower] of the Python runtime. Nothing below depends on how it maps
    characters. *)
Variable lower : string -> string.

(** *** Construction from a snapshot *)

Definition parse_expense (expense : json) : result Expense :=
  (description <- (v <- Json.getitem expense "description" ;; Json.as_str v) ;;
   amount <- (v <- Json.getitem expense "amount" ;; Json.as_num v) ;;
   category <- (v <- Json.get expense "category" (JStr "uncategorized") ;;
                Json.as_str v) ;;
   Ok {| description := description; amount := amount; category := category |}
  )%result.

Fixpoint parse_expenses (items : list json) : result (list Expense) :=
  match items with
  | [] => Ok []
  | expense :: rest =>
      (e <- parse_expense expense ;;
       es <- parse_expenses rest ;;
       Ok (e :: es))%result
  end.

Definition parse_wallet (wallet_data : json) : result Wallet :=
  (name <- (v <- Json.getitem wallet_data "name" ;; Json.as_str v) ;;
   currency <- (v <- Json.getitem wallet_data "currency" ;; Json.as_str v) ;;
   balance <- (v <- Json.get wallet_data "balance" (JNum 0.0%float) ;;
               Json.as_num v) ;;
   expenses <- (v <- Json.get wallet_data "expenses" (JList []) ;;
                items <- Json.as_list v ;;
                parse_expenses items) ;;
   Ok {| name := name; currency := currency; balance := balance;
         expenses := expenses |})%result.

(** The loop of [__init__]: every entry becomes a wallet stored under its
    lower-cased name. *)
Fixpoint load_wallets (items : list json) (wallets : list (string * Wallet))
  : result (list (string * Wallet)) :=
  match items with
  | [] => Ok wallets
  | wallet_data :: rest =>
      (wallet <- parse_wallet wallet_data ;;
       load_wallets rest (Dict.set wallets (lower (name wallet)) wallet))%result
  end.

(** [ExpenseManager(data)]; [JNull] stands for [None]. *)
Definition __init__ (data : json) : result ExpenseManager :=
  let payload := if Json.truthy data then data else JDict [("wallets", JList [])] in
  (v <- Json.get payload "wallets" (JList []) ;;
   items <- Json.as_list v ;;
   wallets <- load_wallets items [] ;;
   Ok {| wallets := wallets |})%result.

(** *** Wallet operations *)

Definition create_wallet (name currency : string) (balance : float) : M Wallet :=
  (let key := lower name in
   registry <- read_wallets ;;
   if Dict.contains registry key then raise (WalletExistsError name)
   else
     lift (Currency.validate_currency currency) ;;;
     let wallet := {| name := name; currency := currency; balance := balance;
                      expenses := [] |} in
     store_wallet key wallet ;;;
     ret wallet)%manager.

Definition get_wallet (name : string) : M Wallet :=
  (let key := lower name in
   registry <- read_wallets ;;
   if negb (Dict.contains registry key) then raise (WalletNotFoundError name)
   else lift (Dict.getitem registry key))%manager.

Definition list_wallets : M (list Wallet) :=
  (registry <- read_wallets ;; ret (Dict.values registry))%manager.

(** *** Expense operations *)

(** [wallet.add_expense(expense)] changes the wallet object that the
    registry holds under the key it was found at; the changed wallet is
    written back there. *)
Definition add_expense (wallet_name description : string) (amount : float)
  (category : string) : M Expense :=
  (wallet <- get_wallet wallet_name ;;
   let expense := {| description := description; amount := amount;
                     category := category |} in
   store_wallet (lower wallet_name) (Models.add_expense wallet expense) ;;;
   ret expense)%manager.

(** *** Reporting *)

(** [dataclasses.asdict(expense)] *)
Definition asdict (expense : Expense) : json :=
  JDict [ ("description", JStr (description expense));
          ("amount", JNum (amount expense));
          ("category", JStr (category expense)) ].

Definition wallet_to_dict (wallet : Wallet) : json :=
  JDict [ ("name", JStr (name wallet));
          ("currency", JStr (currency wallet));
          ("balance", JNum (balance wallet));
          ("expenses", JList (map asdict (expenses wallet))) ].

Definition to_dict : M json :=
  (ws <- list_wallets ;;
   ret (JDict [("wallets", JList (map wallet_to_dict ws))]))%manager.

(** The loop of [consolidated_dashboard], with the three accumulators. *)
Fixpoint dashboard_loop (target_currency : string) (ws : list Wallet)
  (total_balance total_spent : float) (wallets_summary : list WalletSummary.t)
  : result (float * float * list WalletSummary.t) :=
  match ws with
  | [] => Ok (total_balance, total_spent, wallets_summary)
  | wallet :: rest =>
      (balance_converted <-
         Currency.convert (balance wallet) (currency wallet) target_currency ;;
       spent_converted <-
         Currency.convert (Models.total_spent wallet) (currency wallet)
           target_currency ;;
       dashboard_loop target_currency rest
         (total_balance + balance_converted)%float
         (total_spent + spent_converted)%float
         (wallets_summary ++
            [ {| WalletSummary.name := name wallet;
                 WalletSummary.currency := currency wallet;
                 WalletSummary.balance := balance wallet;
                 WalletSummary.balance_in_target := balance_converted;
                 WalletSummary.total_spent := Models.total_spent wallet;
                 WalletSummary.total_spent_in_target := spent_converted |} ])
      )%result
  end.

Definition consolidated_dashboard (target_currency : string) : M Dashboard.t :=
  (lift (Currency.validate_currency target_currency) ;;;
   ws <- list_wallets ;;
   totals <- lift (dashboard_loop target_currency ws 0.0%float 0.0%float []) ;;
   let '(total_balance, total_spent, wallets_summary) := totals in
   ret {| Dashboard.target_currency := target_currency;
          Dashboard.total_balance := total_balance;
          Dashboard.total_spent := total_spent;
          Dashboard.net_position := (total_balance - total_spent)%float;
          Dashboard.wallets := wallets_summary;
          Dashboard.supported_currencies := Currency.list_supported_currencies |}
  )%manager.

Fixpoint report_expenses (wallet_currency target : string) (es : list Expense)
  : result (list ExpenseLine.t) :=
  match es with
  | [] => Ok []
  | expense :: rest =>
      (amount_in_target <-
         Currency.convert (amount expense) wallet_currency target ;;
       lines <- report_expenses wallet_currency target rest ;;
       Ok ({| ExpenseLine.description := description expense;
              ExpenseLine.amount := amount expense;
              ExpenseLine.category := category expense;
              ExpenseLine.amount_in_target := amount_in_target |} :: lines)
      )%result
  end.

(** [target_currency or wallet.currency]: [None] and the empty string both
    give way to the wallet's currency. *)
Definition target_or (target_currency : option string) (wallet : Wallet) : string :=
  match target_currency with
  | Some t => if String.eqb t "" then currency wallet else t
  | None => currency wallet
  end.

Definition wallet_report (wallet_name : string) (target_currency : option string)
  : M WalletReport.t :=
  (wallet <- get_wallet wallet_name ;;
   let target := target_or target_currency wallet in
   lift (Currency.validate_currency target) ;;;
   balance_in_target <-
     lift (Currency.convert (balance wallet) (currency wallet) target) ;;
   lines <- lift (report_expenses (currency wallet) target (expenses wallet)) ;;
   ret {| WalletReport.wallet := name wallet;
          WalletReport.wallet_currency := currency wallet;
          WalletReport.balance := balance wallet;
          WalletReport.balance_in_target := balance_in_target;
          WalletReport.expenses := lines;
          WalletReport.target_currency := target |})%manager.

End WithLower.

End Manager.

(** ** The manager's public operations as data, and the states it can be in *)

Module Api.

Import Models Manager.

Inductive operation : Type :=
| CreateWallet (name currency : string) (balance : float)
| GetWallet (name : string)
| ListWallets
| AddExpense (wallet_name description : string) (amount : float) (category : string)
| ToDict
| ConsolidatedDashboard (target_currency : string)
| WalletReport (wallet_name : string) (target_currency : option string).

Definition discard {A : Type} (c : M A) : M unit :=
  (c ;;; ret tt)%manager.

(** One call on the manager, its return value dropped: what is left is
    whether it raised, and the state after it. *)
Definition call (lower : string -> string) (op : operation) : M unit :=
  match op with
  | CreateWallet name currency balance =>
      discard (create_wallet lower name currency balance)
  | GetWallet name => discard (get_wallet lower name)
  | ListWallets => discard list_wallets
  | AddExpense wallet_name description amount category =>
      discard (add_expense lower wallet_name description amount category)
  | ToDict => discard to_dict
  | ConsolidatedDashboard target_currency =>
      discard (consolidated_dashboard target_currency)
  | WalletReport wallet_name target_currency =>
      discard (wallet_report lower wallet_name target_currency)
  end.

(** A manager state is one that the program can build: constructed from a
    snapshot, then changed by calls of its operations only (the registry is
    owned by the manager). *)
Inductive reachable (lower : string -> string) : ExpenseManager -> Prop :=
| reachable_init (data : json) (self : ExpenseManager) :
    __init__ lower data = Ok self -> reachable lower self
| reachable_call (op : operation) (self : ExpenseManager) :
    reachable lower self -> reachable lower (snd (call lower op self)).

(** A wallet named like [name], up to case, is registered. *)
Definition registered (lower : string -> string) (self : ExpenseManager)
  (name : string) : Prop :=
  exists wallet : Wallet,
    In wallet (Dict.values (wallets self)) /\
    lower (Models.name wallet) = lower name.

(** An operation that never writes to the manager. *)
Definition keeps_state {A : Type} (c : M A) : Prop :=
  forall self, snd (c self) = self.

(** Every wallet sits under the lower-cased form of its own name, and no key
    occurs twice. *)
Definition well_keyed (lower : string -> string) (registry : list (string * Wallet))
  : Prop :=
  Forall (fun entry => fst entry = lower (Models.name (snd entry))) registry /\
  NoDup (Dict.keys registry).

(** The registry that the loop of [__init__] builds from the wallets of a
    snapshot, in the snapshot's order. *)
Definition register_all (lower : string -> string) (ws : list Wallet)
  (registry : list (string * Wallet)) : list (string * Wallet) :=
  fold_left (fun acc w => Dict.set acc (lower (Models.name w)) w) ws registry.

(** The shape of a serialized registry, after the specification:
    [{wallets: [{name, currency, balance, expenses: [{description, amount,
    category}, ...]}, ...]}], with exactly these keys, in this order. *)
Definition expense_shape (v : json) : Prop :=
  exists (description : string) (amount : float) (category : string),
    v = JDict [ ("description", JStr description);
                ("amount", JNum amount);
                ("category", JStr category) ].

Definition wallet_shape (v : json) : Prop :=
  exists (name currency : string) (balance : float) (expenses : list json),
    v = JDict [ ("name", JStr name);
                ("currency", JStr currency);
                ("balance", JNum balance);
                ("expenses", JList expenses) ] /\
    Forall expense_shape expenses.

Definition snapshot_shape (v : json) : Prop :=
  exists ws : list json,
    v = JDict [("wallets", JList ws)] /\ Forall wallet_shape ws.

(** The line of the dashboard for one wallet: the wallet's own figures, and
    its balance and its spending as [convert] returns them for the target. *)
Definition summarizes (target : string) (w : Wallet) (s : WalletSummary.t) : Prop :=
  WalletSummary.name s = Models.name w /\
  WalletSummary.currency s = Models.currency w /\
  WalletSummary.balance s = Models.balance w /\
  Currency.convert (Models.balance w) (Models.currency w) target
    = Ok (WalletSummary.balance_in_target s) /\
  WalletSummary.total_spent s = Models.total_spent w /\
  Currency.convert (Models.total_spent w) (Models.currency w) target
    = Ok (WalletSummary.total_spent_in_target s).

(** The line of a wallet report for an expense whose amount needs no
    conversion. *)
Definition unconverted_line (e : Expense) : ExpenseLine.t :=
  {| ExpenseLine.description := Models.description e;
     ExpenseLine.amount := Models.amount e;
     ExpenseLine.category := Models.category e;
     ExpenseLine.amount_in_target := Models.amount e |}.

(** Lower-casing of the ASCII letters, the other characters unchanged: what
    [str.lower] does on ASCII text. Used where a statement is evaluated on
    concrete names. *)
Definition lower_ascii (c : ascii) : ascii :=
  let n := nat_of_ascii c in
  if andb (Nat.leb 65 n) (Nat.leb n 90) then ascii_of_nat (n + 32) else c.

Fixpoint str_lower (s : string) : string :=
  match s with
  | EmptyString => EmptyString
  | String c rest => String (lower_ascii c) (str_lower rest)
  end.

End Api.

(** ** sample_data.py and the fixture of tests/test_manager.py *)

Module SampleData.

Import Manager.

Definition load_demo_data : json :=
  JDict
    [ ("wallets",
       JList
         [ JDict
             [ ("name", JStr "Personal");
               ("currency", JStr "USD");
               ("balance", JNum 1200.0%float);
               ("expenses",
                JList
                  [ JDict [ ("description", JStr "Rent");
                            ("amount", JNum 700.0%float);
                            ("category", JStr "housing") ];
                    JDict [ ("description", JStr "Groceries");
                            ("amount", JNum 150.0%float);
                            ("category", JStr "food") ] ]) ];
           JDict
             [ ("name", JStr "Travel");
               ("currency", JStr "EUR");
               ("balance", JNum 500.0%float);
               ("expenses",
                JList
                  [ JDict [ ("description", JStr "Flights");
                            ("amount", JNum 200.0%float);
                            ("category", JStr "travel") ] ]) ];
           JDict
             [ ("name", JStr "Savings");
               ("currency", JStr "JPY");
               ("balance", JNum 100000.0%float);
               ("expenses", JList []) ] ]) ].

(** The calls of [create_sample_manager], in order. *)
Definition sample_calls : list Api.operation :=
  [ Api.CreateWallet "Personal" "USD" 1000%float;
    Api.CreateWallet "Travel" "EUR" 500%float;
    Api.AddExpense "Personal" "Groceries" 120%float "food";
    Api.AddExpense "Travel" "Hotel" 200%float "lodging" ].

Definition create_sample_manager : ExpenseManager :=
  fold_left (fun self op => snd (Api.call Api.str_lower op self)) sample_calls
    {| wallets := [] |}.

(** A snapshot as the storage layer can hand it to the constructor, with a
    wallet in a currency that the table does not have. *)
Definition foreign_snapshot : json :=
  JDict
    [ ("wallets",
       JList [ JDict [ ("name", JStr "Cash");
                       ("currency", JStr "BTC");
                       ("balance", JNum 10.0%float);
                       ("expenses", JList []) ] ]) ].

End SampleData.

(** ** The numbers behind the floats

    A finite binary64 value is [(-1)^s * m * 2^e] with a mantissa [m] of at
    most 53 bits; [Prim2SF] gives the triple of a primitive float. The
    rational number it denotes is what a tolerance is measured on. *)

Module Binary64.

Import SpecFloat.

(** The position of the exact value [N / D] between the integers [m] and
    [m + 1], as the rounding code of the float specification records it. *)
Definition inbetween (m : Z) (l : location) (N D : Z) : Prop :=
  match l with
  | loc_Exact => N = (m * D)%Z
  | loc_Inexact c =>
      (m * D < N < (m + 1) * D)%Z /\ (2 * N ?= (2 * m + 1) * D)%Z = c
  end.

(** A mantissa of exactly 53 bits: a normal number. *)
Definition normal53 (m : positive) : Prop := Zpos (digits2_pos m) = 53%Z.

Definition magnitude (m : positive) (e : Z) : Q :=
  (inject_Z (Zpos m) * (2 # 1) ^ e)%Q.

(** The unit roundoff of binary64. *)
Definition u53 : Q := 1 # (2 ^ 53).

Definition SF2Q (x : spec_float) : Q :=
  match x with
  | S754_finite s m e => if s then (- magnitude m e)%Q else magnitude m e
  | _ => 0%Q
  end.

Definition float_value (x : float) : Q := SF2Q (Prim2SF x).

Definition is_finite (x : float) : bool :=
  match Prim2SF x with
  | S754_finite _ _ _ | S754_zero _ => true
  | _ => false
  end.

(** A rate of the currency table: positive, normal, between 0.5 and 256. *)
Definition rate_float (r : float) : Prop :=
  exists (mr : positive) (er : Z),
    Prim2SF r = S754_finite false mr er /\ normal53 mr /\ (-53 <= er <= -45)%Z.

(** [z] is [x] up to the relative tolerance [tol]: [z] is a finite number
    and [|z - x| <= tol * |x|]. *)
Definition near (tol : Q) (x z : float) : Prop :=
  is_finite z = true /\
  (Qabs (float_value z - float_value x) <= tol * Qabs (float_value x))%Q.

(** An amount converted from [a] to [b] and back. *)
Definition round_trip (x : float) (a b : string) : result float :=
  (y <- Currency.convert x a b ;; Currency.convert y b a)%result.

End Binary64.

(** ** currency.py: the rate of one currency *)

Module Rates.

Record ConversionRate : Type := {
  currency : string;
  rate : float
}.

Definition get_rate (currency : string) : result ConversionRate :=
  (Currency.validate_currency currency ;;;
   rate <- Dict.getitem Currency.SUPPORTED_CURRENCIES currency ;;
   Ok {| currency := currency; rate := rate |})%result.

End Rates.

(** ** storage.py and cli.py

    The data file is modelled by what [json.load] reads from it: [None]
    when the file does not exist, the plain datum otherwise. [save_data]
    writes the JSON text of its argument; reading that text back gives the
    argument again (with the keys of each mapping in sorted order, which a
    lookup by key does not see), so the file after a save is the datum that
    was saved. The parsed command line is a value of [command], with the
    defaults of the parser filled in; what [main] prints is a value of
    [printed]. *)

Module Storage.

Definition load_data (file : option json) : json :=
  match file with
  | None => JDict [("wallets", JList [])]
  | Some data => data
  end.

Definition save_data (data : json) (file : option json) : option json :=
  Some data.

End Storage.

Module Cli.

Import Models Manager.

Inductive command : Type :=
| create_wallet_cmd (name currency : string) (balance : float)
| add_expense_cmd (wallet : string) (amount : float) (description category : string)
| list_wallets_cmd
| dashboard_cmd (currency : string)
| preview_cmd (currency : string) (demo : bool)
| wallet_report_cmd (wallet : string) (currency : option string)
| supported_currencies_cmd.

(** One row of the [list-wallets] listing. *)
Record WalletRow : Type := {
  row_name : string;
  row_currency : string;
  row_balance : float;
  row_expenses : nat
}.

Inductive printed : Type :=
| PMessage (message : string)
| PExpenseAdded (message : string) (expense : Expense)
| PWallets (rows : list WalletRow)
| PDashboard (dashboard : Dashboard.t)
| PWalletReport (report : WalletReport.t)
| PSupportedCurrencies (table : list (string * float))
| PPreview (target_currency : string) (total_balance total_spent net_position : float)
    (using_demo_data : bool).

(** A run of the program on the data file: what it prints, or the exception
    it dies of, and the data file it leaves. *)
Definition IO (A : Type) : Type := option json -> result A * option json.

Definition io_ret {A : Type} (a : A) : IO A := fun file => (Ok a, file).

Definition io_bind {A B : Type} (c : IO A) (k : A -> IO B) : IO B :=
  fun file =>
    match c file with
    | (Ok a, file') => k a file'
    | (Raise e, file') => (Raise e, file')
    end.

Definition io_lift {A : Type} (r : result A) : IO A := fun file => (r, file).

Declare Scope io_scope.
Delimit Scope io_scope with io.
Notation "x <- c ;; k" := (io_bind c (fun x => k))
  (at level 61, c at next level, right associativity) : io_scope.
Notation "c ;;; k" := (io_bind c (fun _ => k))
  (at level 61, right associativity) : io_scope.

Section WithCase.

(** [str.lower] and [str.upper] of the Python runtime. *)
Variable lower : string -> string.
Variable upper : string -> string.

(** [_load_manager] *)
Definition _load_manager : IO ExpenseManager :=
  fun file => (__init__ lower (Storage.load_data file), file).

(** [_persist] *)
Definition _persist (manager : ExpenseManager) : IO unit :=
  fun file =>
    match to_dict manager with
    | (Ok data, _) => (Ok tt, Storage.save_data data file)
    | (Raise e, _) => (Raise e, file)
    end.

(** A method call on the manager object that [main] holds: its value and
    the manager after it, or its exception. *)
Definition invoke {A : Type} (c : M A) (manager : ExpenseManager)
  : IO (A * ExpenseManager) :=
  io_lift (match c manager with
           | (Ok a, manager') => Ok (a, manager')
           | (Raise e, _) => Raise e
           end).

Definition wallet_row (wallet : Wallet) : WalletRow :=
  {| row_name := name wallet;
     row_currency := currency wallet;
     row_balance := balance wallet;
     row_expenses := List.length (expenses wallet) |}.

Definition main (args : command) : IO printed :=
  (let demo_mode := match args with preview_cmd _ true => true | _ => false end in
   manager <- (if demo_mode
               then io_lift (__init__ lower SampleData.load_demo_data)
               else _load_manager) ;;
   match args with
   | create_wallet_cmd name currency balance =>
       r <- invoke (create_wallet lower name currency balance) manager ;;
       let '(wallet, manager) := r in
       _persist manager ;;;
       io_ret (PMessage
                 (String.append "Wallet '"
                    (String.append (Models.name wallet) "' created.")))
   | add_expense_cmd wallet amount description category =>
       r <- invoke (add_expense lower wallet description amount category) manager ;;
       let '(expense, manager) := r in
       _persist manager ;;;
       io_ret (PExpenseAdded
                 (String.append "Added expense '"
                    (String.append (Models.description expense)
                       (String.append "' to wallet '"
                          (String.append wallet "'."))))
                 expense)
   | list_wallets_cmd =>
       r <- invoke list_wallets manager ;;
       io_ret (PWallets (map wallet_row (fst r)))
   | dashboard_cmd currency =>
       r <- invoke (consolidated_dashboard currency) manager ;;
       io_ret (PDashboard (fst r))
   | wallet_report_cmd wallet currency =>
       r <- invoke (wallet_report lower wallet currency) manager ;;
       io_ret (PWalletReport (fst r))
   | supported_currencies_cmd =>
       io_ret (PSupportedCurrencies Currency.list_supported_currencies)
   | preview_cmd currency _ =>
       let target := upper currency in
       r <- invoke (consolidated_dashboard target) manager ;;
       let dashboard := fst r in
       io_ret (PPreview target
                 (Dashboard.total_balance dashboard)
                 (Dashboard.total_spent dashboard)
                 (Dashboard.net_position dashboard)
                 demo_mode)
   end)%io.

End WithCase.

(** The commands that only read. *)
Definition is_query (args : command) : bool :=
  match args with
  | create_wallet_cmd _ _ _ | add_expense_cmd _ _ _ _ => false
  | _ => true
  end.

(** Upper-casing of the ASCII letters, for statements evaluated on
    concrete codes. *)
Definition upper_ascii (c : ascii) : ascii :=
  let n := nat_of_ascii c in
  if andb (Nat.leb 97 n) (Nat.leb n 122) then ascii_of_nat (n - 32) else c.

Fixpoint str_upper (s : string) : string :=
  match s with
  | EmptyString => EmptyString
  | String c rest => String (upper_ascii c) (str_upper rest)
  end.

End Cli.

(** ** Vocabulary of the further properties *)

Module Facts.

Import Models Manager.

(** The operations of the manager that only read. *)
Definition is_query (op : Api.operation) : bool :=
  match op with
  | Api.CreateWallet _ _ _ | Api.AddExpense _ _ _ _ => false
  | _ => true
  end.

(** The line of a wallet report for one expense: the expense's own fields,
    and its amount as [convert] returns it for the target. *)
Definition reports (wallet_currency target : string) (e : Expense)
  (l : ExpenseLine.t) : Prop :=
  ExpenseLine.description l = description e /\
  ExpenseLine.amount l = amount e /\
  ExpenseLine.category l = category e /\
  Currency.convert (amount e) wallet_currency target
    = Ok (ExpenseLine.amount_in_target l).

(** A wallet of the registry lives on in a later registry: same key, same
    name and currency, and the expenses it had are the first ones it has. *)
Definition lives_on (before after : list (string * Wallet)) : Prop :=
  forall (key : string) (w : Wallet),
    Dict.get before key = Some w ->
    exists (w' : Wallet) (added : list Expense),
      Dict.get after key = Some w' /\
      name w' = name w /\ currency w' = currency w /\
      expenses w' = expenses w ++ added.

(** The exact quotient behind a conversion: the amount times the target
    rate over the source rate, as rational numbers. *)
Definition exact_conversion (x ra rb : float) : Q :=
  (Binary64.float_value x / Binary64.float_value ra * Binary64.float_value rb)%Q.

End Facts.

(** * Properties *)

(** Membership of a concrete code in the table. *)
Ltac in_table := unfold Currency.supported; simpl; tauto.

(** ** Dictionaries *)

Section DictFacts.
Context {V : Type}.

Lemma dict_contains_get (d : list (string * V)) (key : string) :
  Dict.contains d key = true <-> exists v, Dict.get d key = Some v.
Proof.
  unfold Dict.contains. destruct (Dict.get d key) as [v|].
  - split; [eauto | reflexivity].
  - split; [discriminate | intros [v Hv]; discriminate].
Qed.

Lemma dict_get_in_keys (d : list (string * V)) (key : string) :
  Dict.contains d key = true <-> In key (Dict.keys d).
Proof.
  unfold Dict.contains, Dict.keys.
  induction d as [|[k v] rest IH]; simpl.
  - split; [discriminate | contradiction].
  - destruct (String.eqb_spec key k) as [->|Hne].
    + split; auto.
    + rewrite IH. split; [auto | intros [Heq|Hin]; [congruence | exact Hin]].
Qed.

End DictFacts.

(** ** The currency table *)

Section CurrencyFacts.
Import Currency.

Lemma contains_supported (c : string) :
  Dict.contains SUPPORTED_CURRENCIES c = true <-> supported c.
Proof.
  rewrite dict_get_in_keys. unfold supported. simpl. reflexivity.
Qed.

Lemma validate_supported (c : string) :
  supported c -> validate_currency c = Ok tt.
Proof.
  intros H. apply contains_supported in H.
  unfold validate_currency. rewrite H. reflexivity.
Qed.

Lemma validate_unsupported (c : string) :
  ~ supported c -> validate_currency c = Raise (CurrencyNotSupportedError c).
Proof.
  intros H. unfold validate_currency.
  destruct (Dict.contains SUPPORTED_CURRENCIES c) eqn:E; [|reflexivity].
  apply contains_supported in E. contradiction.
Qed.

Lemma supported_dec (c : string) : {supported c} + {~ supported c}.
Proof. apply (in_dec string_dec). Defined.

Lemma supported_rate (c : string) :
  supported c -> exists r, Dict.get SUPPORTED_CURRENCIES c = Some r.
Proof.
  intros H. apply contains_supported in H. apply dict_contains_get in H. exact H.
Qed.

(** The conversion of an amount between two supported currencies, as a
    function of the two rates. *)
Lemma convert_supported (x : float) (a b : string) (ra rb : float) :
  Dict.get SUPPORTED_CURRENCIES a = Some ra ->
  Dict.get SUPPORTED_CURRENCIES b = Some rb ->
  convert x a b = Ok (if String.eqb a b then x else (x / ra * rb)%float).
Proof.
  intros Ha Hb. unfold convert, validate_currency, Dict.contains, Dict.getitem.
  rewrite Ha, Hb. simpl. destruct (String.eqb a b); reflexivity.
Qed.

(** C1. For every amount [x] and supported codes [a], [b]: [convert x a b]
    returns [x] itself when [a = b], with no arithmetic on it, and otherwise
    [(x / rate a) * rate b], the division by the source rate (the amount in
    the base currency USD, whose rate is 1.0) done first and the
    multiplication by the target rate second. *)
Theorem convert_identity_or_two_hop (x : float) (a b : string) :
  supported a -> supported b ->
  exists ra rb : float,
    Dict.get SUPPORTED_CURRENCIES a = Some ra /\
    Dict.get SUPPORTED_CURRENCIES b = Some rb /\
    Dict.get SUPPORTED_CURRENCIES BASE_CURRENCY = Some 1.0%float /\
    (a = b -> convert x a b = Ok x) /\
    (a <> b -> convert x a b = Ok (x / ra * rb)%float).
Proof.
  intros Ha Hb.
  destruct (supported_rate a Ha) as [ra Hra].
  destruct (supported_rate b Hb) as [rb Hrb].
  exists ra, rb. repeat split; try assumption.
  - intros ->. rewrite (convert_supported x b b ra rb Hra Hrb).
    now rewrite String.eqb_refl.
  - intros Hne. rewrite (convert_supported x a b ra rb Hra Hrb).
    apply String.eqb_neq in Hne. now rewrite Hne.
Qed.

End CurrencyFacts.

Section CurrencyErrors.
Import Currency.

Lemma convert_unsupported_from (x : float) (a b : string) :
  ~ supported a -> convert x a b = Raise (CurrencyNotSupportedError a).
Proof.
  intros H. unfold convert. rewrite (validate_unsupported a H). reflexivity.
Qed.

Lemma convert_unsupported_to (x : float) (a b : string) :
  supported a -> ~ supported b ->
  convert x a b = Raise (CurrencyNotSupportedError b).
Proof.
  intros Ha Hb. unfold convert.
  rewrite (validate_supported a Ha), (validate_unsupported b Hb). reflexivity.
Qed.

Lemma convert_supported_ok (x : float) (a b : string) :
  supported a -> supported b -> exists y, convert x a b = Ok y.
Proof.
  intros Ha Hb.
  destruct (supported_rate a Ha) as [ra Hra].
  destruct (supported_rate b Hb) as [rb Hrb].
  rewrite (convert_supported x a b ra rb Hra Hrb). eauto.
Qed.

(** [convert] raises [CurrencyNotSupportedError] exactly when one of its two
    codes is outside the table, and it raises nothing else. *)
Lemma convert_raises_iff (x : float) (a b : string) :
  (exists c, convert x a b = Raise (CurrencyNotSupportedError c)) <->
  (~ supported a \/ ~ supported b).
Proof.
  split.
  - intros [c Hc].
    destruct (supported_dec a) as [Ha|Ha]; [|now left].
    destruct (supported_dec b) as [Hb|Hb]; [|now right].
    destruct (convert_supported_ok x a b Ha Hb) as [y Hy]. congruence.
  - intros [Ha|Hb].
    + exists a. now apply convert_unsupported_from.
    + destruct (supported_dec a) as [Ha|Ha].
      * exists b. now apply convert_unsupported_to.
      * exists a. now apply convert_unsupported_from.
Qed.

(** C4. For every code [c]: [validate_currency c] raises
    [CurrencyNotSupportedError] if and only if [c] is outside
    {USD, EUR, GBP, JPY, AUD}, and succeeds if and only if [c] is in it;
    [convert], with [c] as its source or as its target and a supported code
    in the other place, raises [CurrencyNotSupportedError] if and only if [c]
    is outside the set, and for a member it returns a number. *)
Theorem currency_not_supported_iff (c : string) :
  (validate_currency c = Raise (CurrencyNotSupportedError c) <-> ~ supported c) /\
  (validate_currency c = Ok tt <-> supported c) /\
  (forall (x : float) (d : string), supported d ->
     ((exists e, convert x c d = Raise (CurrencyNotSupportedError e)) <->
      ~ supported c) /\
     ((exists e, convert x d c = Raise (CurrencyNotSupportedError e)) <->
      ~ supported c) /\
     (supported c ->
      (exists y, convert x c d = Ok y) /\ (exists y, convert x d c = Ok y))).
Proof.
  split; [|split].
  - split.
    + intros H Hs. rewrite (validate_supported c Hs) in H. discriminate.
    + apply validate_unsupported.
  - split.
    + intros H. destruct (supported_dec c) as [Hs|Hs]; [exact Hs|].
      rewrite (validate_unsupported c Hs) in H. discriminate.
    + apply validate_supported.
  - intros x d Hd. split; [|split].
    + rewrite convert_raises_iff. tauto.
    + rewrite convert_raises_iff. tauto.
    + intros Hc. split; now apply convert_supported_ok.
Qed.

End CurrencyErrors.

(** ** Wallets *)

Section WalletFacts.
Import Models.

Lemma sum_app (xs : list float) (x : float) :
  sum (xs ++ [x]) = (sum xs + x)%float.
Proof. unfold sum. rewrite fold_left_app. reflexivity. Qed.

Lemma total_spent_add_expense (w : Wallet) (e : Expense) :
  total_spent (add_expense w e) = (total_spent w + amount e)%float.
Proof.
  unfold total_spent, add_expense. simpl. rewrite map_app. simpl.
  apply sum_app.
Qed.

End WalletFacts.

(** ** The manager's operations, run on a state *)

Section ManagerRuns.
Import Models Manager Api.
Variable lower : string -> string.

Lemma dict_get_set_same {V : Type} (d : list (string * V)) (k : string) (v : V) :
  Dict.get (Dict.set d k v) k = Some v.
Proof.
  induction d as [|[k' v'] rest IH]; simpl.
  - now rewrite String.eqb_refl.
  - destruct (String.eqb_spec k k') as [->|Hne]; simpl.
    + now rewrite String.eqb_refl.
    + apply String.eqb_neq in Hne. now rewrite Hne.
Qed.

Lemma dict_get_set_other {V : Type} (d : list (string * V)) (k k' : string) (v : V) :
  k' <> k -> Dict.get (Dict.set d k v) k' = Dict.get d k'.
Proof.
  intros Hne. induction d as [|[k0 v0] rest IH]; simpl.
  - apply String.eqb_neq in Hne. now rewrite Hne.
  - destruct (String.eqb_spec k k0) as [->|Hk]; simpl.
    + apply String.eqb_neq in Hne. now rewrite Hne.
    + now rewrite IH.
Qed.

Lemma dict_set_fresh {V : Type} (d : list (string * V)) (k : string) (v : V) :
  Dict.get d k = None -> Dict.set d k v = d ++ [(k, v)].
Proof.
  induction d as [|[k0 v0] rest IH]; simpl; [reflexivity|].
  destruct (String.eqb k k0); [discriminate|].
  intros H. now rewrite IH.
Qed.

Lemma dict_keys_set_present {V : Type} (d : list (string * V)) (k : string) (v : V) :
  Dict.get d k <> None -> Dict.keys (Dict.set d k v) = Dict.keys d.
Proof.
  unfold Dict.keys. induction d as [|[k0 v0] rest IH]; simpl.
  - congruence.
  - destruct (String.eqb k k0) eqn:E; simpl; [reflexivity|].
    intros H. now rewrite IH.
Qed.

Lemma get_wallet_run (name : string) (self : ExpenseManager) :
  get_wallet lower name self =
  (match Dict.get (wallets self) (lower name) with
   | Some wallet => Ok wallet
   | None => Raise (WalletNotFoundError name)
   end, self).
Proof.
  unfold get_wallet, bind, read_wallets, raise, lift, Dict.contains, Dict.getitem.
  destruct (Dict.get (wallets self) (lower name)); reflexivity.
Qed.

Lemma create_wallet_run (name currency : string) (balance : float)
  (self : ExpenseManager) :
  create_wallet lower name currency balance self =
  match Dict.get (wallets self) (lower name) with
  | Some _ => (Raise (WalletExistsError name), self)
  | None =>
      match Currency.validate_currency currency with
      | Raise e => (Raise e, self)
      | Ok _ =>
          let wallet := {| Models.name := name; Models.currency := currency;
                           Models.balance := balance; expenses := [] |} in
          (Ok wallet, {| wallets := wallets self ++ [(lower name, wallet)] |})
      end
  end.
Proof.
  unfold create_wallet, bind, read_wallets, raise, lift, store_wallet, ret,
    Dict.contains.
  destruct (Dict.get (wallets self) (lower name)) eqn:E; [reflexivity|].
  destruct (Currency.validate_currency currency); [|reflexivity].
  simpl. now rewrite (dict_set_fresh _ _ _ E).
Qed.

Lemma add_expense_run (wallet_name description : string) (amount : float)
  (category : string) (self : ExpenseManager) :
  add_expense lower wallet_name description amount category self =
  let expense := {| Models.description := description; Models.amount := amount;
                    Models.category := category |} in
  match Dict.get (wallets self) (lower wallet_name) with
  | Some wallet =>
      (Ok expense,
       {| wallets := Dict.set (wallets self) (lower wallet_name)
                       (Models.add_expense wallet expense) |})
  | None => (Raise (WalletNotFoundError wallet_name), self)
  end.
Proof.
  unfold add_expense, bind. rewrite get_wallet_run.
  destruct (Dict.get (wallets self) (lower wallet_name)); reflexivity.
Qed.

Lemma list_wallets_run (self : ExpenseManager) :
  list_wallets self = (Ok (Dict.values (wallets self)), self).
Proof. reflexivity. Qed.

Lemma to_dict_run (self : ExpenseManager) :
  to_dict self =
  (Ok (JDict [("wallets", JList (map wallet_to_dict (Dict.values (wallets self))))]),
   self).
Proof. reflexivity. Qed.

End ManagerRuns.

Section ExpenseRecording.
Import Models Manager Api.

Lemma add_expense_updates (lower : string -> string) (self : ExpenseManager)
  (wallet_name description : string) (amount : float) (category : string)
  (wallet : Wallet) :
  fst (get_wallet lower wallet_name self) = Ok wallet ->
  let expense := {| Models.description := description; Models.amount := amount;
                    Models.category := category |} in
  let self' := snd (add_expense lower wallet_name description amount category self) in
  fst (add_expense lower wallet_name description amount category self) = Ok expense /\
  fst (get_wallet lower wallet_name self') = Ok (Models.add_expense wallet expense) /\
  (forall key, key <> lower wallet_name ->
     Dict.get (wallets self') key = Dict.get (wallets self) key) /\
  Dict.keys (wallets self') = Dict.keys (wallets self).
Proof.
  rewrite get_wallet_run. simpl. intros Hget.
  rewrite add_expense_run, get_wallet_run.
  destruct (Dict.get (wallets self) (lower wallet_name)) as [w|] eqn:E;
    [|discriminate].
  injection Hget as ->. simpl. repeat split.
  - now rewrite dict_get_set_same.
  - intros key Hkey. now apply dict_get_set_other.
  - apply dict_keys_set_present. congruence.
Qed.

(** C3. For every wallet and expense record, [Wallet.add_expense] puts the
    record at the end of the wallet's expenses and lowers the balance by the
    record's amount, name and currency staying as they are;
    [total_spent] is the left-to-right sum of the recorded amounts, so it
    grows by the amount of each added record. The manager's [add_expense]
    does this to the wallet it finds under the name and to no other. In
    particular, after [create_wallet("Personal", "USD", balance=1000)] and
    [add_expense("Personal", "Groceries", 120, "food")] on an empty manager
    the wallet's balance is 880 and its [total_spent()] is 120. *)
Theorem add_expense_appends_and_debits :
  (forall (w : Wallet) (e : Expense),
     expenses (Models.add_expense w e) = expenses w ++ [e] /\
     balance (Models.add_expense w e) = (balance w - amount e)%float /\
     name (Models.add_expense w e) = name w /\
     currency (Models.add_expense w e) = currency w /\
     total_spent (Models.add_expense w e) = (total_spent w + amount e)%float) /\
  (forall w : Wallet,
     total_spent w = fold_left PrimFloat.add (map amount (expenses w)) 0%float) /\
  (forall (lower : string -> string) (self : ExpenseManager)
     (wallet_name description : string) (amount : float) (category : string)
     (wallet : Wallet),
     fst (get_wallet lower wallet_name self) = Ok wallet ->
     let expense := {| Models.description := description; Models.amount := amount;
                       Models.category := category |} in
     let self' :=
       snd (add_expense lower wallet_name description amount category self) in
     fst (add_expense lower wallet_name description amount category self)
       = Ok expense /\
     fst (get_wallet lower wallet_name self')
       = Ok (Models.add_expense wallet expense) /\
     (forall key, key <> lower wallet_name ->
        Dict.get (wallets self') key = Dict.get (wallets self) key)) /\
  (forall lower : string -> string,
     exists (wallet : Wallet) (self' : ExpenseManager),
       (create_wallet lower "Personal" "USD" 1000%float ;;;
        add_expense lower "Personal" "Groceries" 120%float "food" ;;;
        get_wallet lower "Personal")%manager {| wallets := [] |}
       = (Ok wallet, self') /\
       balance wallet = 880%float /\
       total_spent wallet = 120%float /\
       expenses wallet =
         [ {| description := "Groceries"; amount := 120%float;
              category := "food" |} ]).
Proof.
  split; [|split; [|split]].
  - intros w e. repeat split. apply total_spent_add_expense.
  - reflexivity.
  - intros lower self wallet_name description amount category wallet H.
    destruct (add_expense_updates lower self wallet_name description amount
                category wallet H) as (H1 & H2 & H3 & _).
    auto.
  - intros lower. eexists. eexists. unfold bind.
    rewrite create_wallet_run. simpl.
    rewrite add_expense_run. simpl. rewrite String.eqb_refl. simpl.
    rewrite get_wallet_run. simpl. rewrite String.eqb_refl.
    split; [reflexivity|]. repeat split; vm_compute; reflexivity.
Qed.

End ExpenseRecording.

Lemma convert_identity_or_two_hop_witness :
  Currency.supported "GBP" /\ Currency.supported "JPY" /\
  exists ra rb : float,
    Dict.get Currency.SUPPORTED_CURRENCIES "GBP" = Some ra /\
    Dict.get Currency.SUPPORTED_CURRENCIES "JPY" = Some rb /\
    Dict.get Currency.SUPPORTED_CURRENCIES Currency.BASE_CURRENCY = Some 1.0%float /\
    ("GBP" = "JPY" -> Currency.convert 50%float "GBP" "JPY" = Ok 50%float) /\
    ("GBP" <> "JPY" ->
     Currency.convert 50%float "GBP" "JPY" = Ok (50 / ra * rb)%float).
Proof.
  split; [|split].
  - in_table.
  - in_table.
  - apply (convert_identity_or_two_hop 50%float "GBP" "JPY");
      in_table.
Defined.

(** ** Read-only operations leave the state alone *)

Section ReadOnly.
Import Models Manager Api.

Lemma keeps_ret {A : Type} (a : A) : keeps_state (ret a).
Proof. intros self. reflexivity. Qed.

Lemma keeps_raise {A : Type} (e : error) : keeps_state (@raise A e).
Proof. intros self. reflexivity. Qed.

Lemma keeps_lift {A : Type} (r : result A) : keeps_state (lift r).
Proof. intros self. reflexivity. Qed.

Lemma keeps_read_wallets : keeps_state read_wallets.
Proof. intros self. reflexivity. Qed.

Lemma keeps_bind {A B : Type} (c : M A) (k : A -> M B) :
  keeps_state c -> (forall a, keeps_state (k a)) -> keeps_state (bind c k).
Proof.
  intros Hc Hk self. unfold bind.
  specialize (Hc self). destruct (c self) as [[a|e] self']; simpl in *; subst.
  - apply Hk.
  - reflexivity.
Qed.

Lemma keeps_discard {A : Type} (c : M A) : keeps_state c -> keeps_state (discard c).
Proof. intros H. apply keeps_bind; [exact H | intros; apply keeps_ret]. Qed.

Lemma keeps_get_wallet (lower : string -> string) (name : string) :
  keeps_state (get_wallet lower name).
Proof. intros self. now rewrite get_wallet_run. Qed.

Lemma keeps_list_wallets : keeps_state list_wallets.
Proof. intros self. reflexivity. Qed.

Lemma keeps_to_dict : keeps_state to_dict.
Proof. intros self. reflexivity. Qed.

Lemma keeps_consolidated_dashboard (target_currency : string) :
  keeps_state (consolidated_dashboard target_currency).
Proof.
  unfold consolidated_dashboard.
  apply keeps_bind; [apply keeps_lift|]. intros _.
  apply keeps_bind; [apply keeps_list_wallets|]. intros ws.
  apply keeps_bind; [apply keeps_lift|]. intros [[tb ts] summary].
  apply keeps_ret.
Qed.

Lemma keeps_wallet_report (lower : string -> string) (wallet_name : string)
  (target_currency : option string) :
  keeps_state (wallet_report lower wallet_name target_currency).
Proof.
  unfold wallet_report.
  apply keeps_bind; [apply keeps_get_wallet|]. intros wallet.
  apply keeps_bind; [apply keeps_lift|]. intros _.
  apply keeps_bind; [apply keeps_lift|]. intros b.
  apply keeps_bind; [apply keeps_lift|]. intros lines.
  apply keeps_ret.
Qed.

End ReadOnly.

(** ** Failure and the state *)

Section Atomicity.
Import Models Manager Api.

(** C8. Every operation of the manager is atomic: when a call raises
    (be it [CurrencyNotSupportedError], [WalletExistsError] or
    [WalletNotFoundError]), the state left behind (the registry and, in it,
    the balance and the expenses of every wallet) is the state before the
    call. *)
Theorem failed_call_leaves_state (lower : string -> string) (op : operation)
  (self : ExpenseManager) (e : error) :
  fst (call lower op self) = Raise e ->
  snd (call lower op self) = self.
Proof.
  destruct op as [name currency balance | name | | wallet_name description
                  amount category | | target_currency
                 | wallet_name target_currency]; unfold call; intros H.
  - revert H. unfold discard, bind. rewrite create_wallet_run.
    destruct (Dict.get (wallets self) (lower name)); [reflexivity|].
    destruct (Currency.validate_currency currency); [discriminate|reflexivity].
  - exact (keeps_discard _ (keeps_get_wallet lower name) self).
  - exact (keeps_discard _ keeps_list_wallets self).
  - revert H. unfold discard, bind. rewrite add_expense_run.
    destruct (Dict.get (wallets self) (lower wallet_name));
      [discriminate|reflexivity].
  - exact (keeps_discard _ keeps_to_dict self).
  - exact (keeps_discard _ (keeps_consolidated_dashboard target_currency) self).
  - exact (keeps_discard _ (keeps_wallet_report lower wallet_name target_currency)
             self).
Qed.

End Atomicity.

(** ** The registry invariant *)

Section RegistryInvariant.
Import Models Manager Api.
Variable lower : string -> string.

Lemma dict_get_in {V : Type} (d : list (string * V)) (k : string) (v : V) :
  Dict.get d k = Some v -> In (k, v) d.
Proof.
  induction d as [|[k0 v0] rest IH]; simpl; [discriminate|].
  destruct (String.eqb_spec k k0) as [->|Hne].
  - intros [= ->]. now left.
  - intros H. right. now apply IH.
Qed.

Lemma dict_get_none {V : Type} (d : list (string * V)) (k : string) :
  Dict.get d k = None <-> ~ In k (Dict.keys d).
Proof.
  rewrite <- dict_get_in_keys. unfold Dict.contains.
  destruct (Dict.get d k); split; intros H; congruence.
Qed.

Lemma dict_in_get {V : Type} (d : list (string * V)) (k : string) (v : V) :
  NoDup (Dict.keys d) -> In (k, v) d -> Dict.get d k = Some v.
Proof.
  unfold Dict.keys.
  induction d as [|[k0 v0] rest IH]; simpl; [contradiction|].
  intros Hnd [Heq|Hin].
  - injection Heq as -> ->. now rewrite String.eqb_refl.
  - inversion Hnd as [|? ? Hnotin Hnd']; subst.
    destruct (String.eqb_spec k k0) as [->|Hne].
    + exfalso. apply Hnotin. change k0 with (fst (k0, v)). now apply in_map.
    + now apply IH.
Qed.

Lemma dict_set_forall {V : Type} (P : string * V -> Prop) (d : list (string * V))
  (k : string) (v : V) :
  Forall P d -> P (k, v) -> Forall P (Dict.set d k v).
Proof.
  intros Hd Hkv. induction Hd as [|[k0 v0] rest H0 Hrest IH]; simpl.
  - now constructor.
  - destruct (String.eqb_spec k k0) as [->|Hne]; constructor; auto.
Qed.

Lemma dict_set_nodup {V : Type} (d : list (string * V)) (k : string) (v : V) :
  NoDup (Dict.keys d) -> NoDup (Dict.keys (Dict.set d k v)).
Proof.
  intros Hnd. destruct (Dict.get d k) as [v0|] eqn:E.
  - rewrite dict_keys_set_present; [exact Hnd | congruence].
  - rewrite (dict_set_fresh _ _ _ E). unfold Dict.keys. rewrite map_app. simpl.
    apply dict_get_none in E.
    apply NoDup_app; [exact Hnd | repeat constructor; simpl; tauto |].
    intros a Ha [<-|[]]. now apply E.
Qed.

Lemma well_keyed_nil : well_keyed lower [].
Proof. split; constructor. Qed.

Lemma well_keyed_set (registry : list (string * Wallet)) (w : Wallet) :
  well_keyed lower registry ->
  well_keyed lower (Dict.set registry (lower (name w)) w).
Proof.
  intros [Hk Hnd]. split.
  - now apply dict_set_forall.
  - now apply dict_set_nodup.
Qed.

Lemma well_keyed_register_all (ws : list Wallet) (registry : list (string * Wallet)) :
  well_keyed lower registry -> well_keyed lower (register_all lower ws registry).
Proof.
  revert registry. induction ws as [|w ws IH]; intros registry H; simpl.
  - exact H.
  - apply IH. now apply well_keyed_set.
Qed.

(** The loop of the constructor succeeds exactly when every entry parses,
    and then it registers the parsed wallets in order. *)
Lemma load_wallets_ok (items : list json) (ws : list Wallet)
  (registry : list (string * Wallet)) :
  Forall2 (fun d w => parse_wallet d = Ok w) items ws ->
  load_wallets lower items registry = Ok (register_all lower ws registry).
Proof.
  intros H. revert registry.
  induction H as [|d w items ws Hd _ IH]; intros registry; simpl.
  - reflexivity.
  - rewrite Hd. simpl. apply IH.
Qed.

Lemma load_wallets_inv (items : list json) (registry r : list (string * Wallet)) :
  load_wallets lower items registry = Ok r ->
  exists ws, Forall2 (fun d w => parse_wallet d = Ok w) items ws /\
             r = register_all lower ws registry.
Proof.
  revert registry. induction items as [|d items IH]; intros registry; simpl.
  - intros [= <-]. exists []. split; [constructor | reflexivity].
  - destruct (parse_wallet d) as [w|e] eqn:Hd; simpl; [|discriminate].
    intros H. destruct (IH _ H) as (ws & Hws & ->).
    exists (w :: ws). split; [now constructor | reflexivity].
Qed.

Lemma init_inv (data : json) (self : ExpenseManager) :
  __init__ lower data = Ok self ->
  exists items ws,
    Json.get (if Json.truthy data then data else JDict [("wallets", JList [])])
      "wallets" (JList []) = Ok (JList items) /\
    Forall2 (fun d w => parse_wallet d = Ok w) items ws /\
    wallets self = register_all lower ws [].
Proof.
  unfold __init__.
  destruct (Json.get _ "wallets" (JList [])) as [v|e]; simpl; [|discriminate].
  destruct v as [| | |items|]; simpl; try discriminate.
  destruct (load_wallets lower items []) as [r|e] eqn:Hl; simpl; [|discriminate].
  intros [= <-]. destruct (load_wallets_inv _ _ _ Hl) as (ws & Hws & ->).
  exists items, ws. auto.
Qed.

Lemma init_well_keyed (data : json) (self : ExpenseManager) :
  __init__ lower data = Ok self -> well_keyed lower (wallets self).
Proof.
  intros H. destruct (init_inv _ _ H) as (items & ws & _ & _ & ->).
  apply well_keyed_register_all, well_keyed_nil.
Qed.

Lemma call_state (op : operation) (self : ExpenseManager) :
  snd (call lower op self) =
  match op with
  | CreateWallet name currency balance =>
      snd (create_wallet lower name currency balance self)
  | AddExpense wallet_name description amount category =>
      snd (add_expense lower wallet_name description amount category self)
  | _ => self
  end.
Proof.
  destruct op as [name currency balance | name | | wallet_name description
                  amount category | | target_currency
                 | wallet_name target_currency]; unfold call.
  - unfold discard, bind, ret.
    destruct (create_wallet lower name currency balance self) as [[w|e] s];
      reflexivity.
  - exact (keeps_discard _ (keeps_get_wallet lower name) self).
  - exact (keeps_discard _ keeps_list_wallets self).
  - unfold discard, bind, ret.
    destruct (add_expense lower wallet_name description amount category self)
      as [[x|e] s]; reflexivity.
  - exact (keeps_discard _ keeps_to_dict self).
  - exact (keeps_discard _ (keeps_consolidated_dashboard target_currency) self).
  - exact (keeps_discard _ (keeps_wallet_report lower wallet_name target_currency)
             self).
Qed.

Lemma call_well_keyed (op : operation) (self : ExpenseManager) :
  well_keyed lower (wallets self) ->
  well_keyed lower (wallets (snd (call lower op self))).
Proof.
  intros H. rewrite call_state.
  destruct op as [name currency balance | name | | wallet_name description
                  amount category | | target_currency
                 | wallet_name target_currency]; try exact H.
  - rewrite create_wallet_run.
    destruct (Dict.get (wallets self) (lower name)) eqn:E; [exact H|].
    destruct (Currency.validate_currency currency); [|exact H].
    simpl. rewrite <- (dict_set_fresh _ _ _ E).
    exact (well_keyed_set _ {| Models.name := name; Models.currency := currency;
                               Models.balance := balance; expenses := [] |} H).
  - rewrite add_expense_run. simpl.
    destruct (Dict.get (wallets self) (lower wallet_name)) as [w|] eqn:E;
      [|exact H].
    simpl. pose proof (dict_get_in _ _ _ E) as Hin.
    destruct H as [Hk Hnd].
    pose proof (proj1 (Forall_forall _ _) Hk _ Hin) as Hw. simpl in Hw.
    split.
    + apply dict_set_forall; [exact Hk | exact Hw].
    + now apply dict_set_nodup.
Qed.

Lemma reachable_well_keyed (self : ExpenseManager) :
  reachable lower self -> well_keyed lower (wallets self).
Proof.
  induction 1 as [data self H | op self _ IH].
  - now apply (init_well_keyed data).
  - now apply call_well_keyed.
Qed.

(** Under the invariant, a name is registered exactly when its key is in
    the dictionary. *)
Lemma registered_iff_get (self : ExpenseManager) (name : string) :
  well_keyed lower (wallets self) ->
  (registered lower self name <->
   exists wallet, Dict.get (wallets self) (lower name) = Some wallet).
Proof.
  intros [Hk Hnd]. rewrite Forall_forall in Hk. split.
  - intros (w & Hin & Hname). unfold Dict.values in Hin.
    apply in_map_iff in Hin. destruct Hin as ([k w'] & Hw & Hin).
    simpl in Hw. subst w'. exists w.
    apply dict_in_get; [exact Hnd|].
    specialize (Hk _ Hin). simpl in Hk. now rewrite <- Hname, <- Hk.
  - intros (w & Hget). apply dict_get_in in Hget.
    exists w. split.
    + unfold Dict.values. change w with (snd (lower name, w)). now apply in_map.
    + specialize (Hk _ Hget). simpl in Hk. now rewrite Hk.
Qed.

End RegistryInvariant.

(** ** Wallet creation *)

Section WalletCreation.
Import Models Manager Api.

(** C5. In every manager state, [create_wallet(name, currency, balance)]
    raises [WalletExistsError] when a wallet whose name equals [name] up to
    case is registered; otherwise it raises [CurrencyNotSupportedError] when
    the currency is not supported; otherwise it returns a wallet with the
    name as given, the currency, the balance and no expenses, and that wallet
    is registered at the end of the registry under the lower-cased name, the
    earlier entries unchanged. The two failures leave the state as it was. *)
Theorem create_wallet_outcomes (lower : string -> string) (self : ExpenseManager)
  (name currency : string) (balance : float) :
  reachable lower self ->
  let wallet := {| Models.name := name; Models.currency := currency;
                   Models.balance := balance; expenses := [] |} in
  (registered lower self name ->
   create_wallet lower name currency balance self
   = (Raise (WalletExistsError name), self)) /\
  (~ registered lower self name -> ~ Currency.supported currency ->
   create_wallet lower name currency balance self
   = (Raise (CurrencyNotSupportedError currency), self)) /\
  (~ registered lower self name -> Currency.supported currency ->
   let self' := {| wallets := wallets self ++ [(lower name, wallet)] |} in
   create_wallet lower name currency balance self = (Ok wallet, self') /\
   registered lower self' name /\
   get_wallet lower name self' = (Ok wallet, self')).
Proof.
  intros Hreach wallet.
  pose proof (reachable_well_keyed lower self Hreach) as Hwk.
  pose proof (registered_iff_get lower self name Hwk) as Hreg.
  rewrite create_wallet_run.
  destruct (Dict.get (wallets self) (lower name)) as [w|] eqn:E.
  - split; [reflexivity|].
    assert (registered lower self name) by (apply Hreg; eauto).
    split; intros; contradiction.
  - assert (Hnot : ~ registered lower self name).
    { intros H. apply Hreg in H. destruct H as [w Hw]. discriminate. }
    split; [intros; contradiction|]. split.
    + intros _ Hc. now rewrite (validate_unsupported currency Hc).
    + intros _ Hc. rewrite (validate_supported currency Hc). simpl.
      assert (Hget : Dict.get (wallets self ++ [(lower name, wallet)]) (lower name)
                     = Some wallet).
      { rewrite <- (dict_set_fresh _ _ wallet E). apply dict_get_set_same. }
      split; [reflexivity|]. split.
      * exists wallet. split; [|reflexivity].
        unfold Dict.values. simpl. rewrite map_app. apply in_or_app.
        right. now left.
      * rewrite get_wallet_run. simpl. now rewrite Hget.
Qed.

Lemma create_wallet_outcomes_witness :
  let self := snd (call str_lower (CreateWallet "Personal" "USD" 1000%float)
                     {| wallets := [] |}) in
  reachable str_lower self /\
  create_wallet str_lower "PERSONAL" "EUR" 0%float self
  = (Raise (WalletExistsError "PERSONAL"), self).
Proof.
  assert (Hreach : reachable str_lower
            (snd (call str_lower (CreateWallet "Personal" "USD" 1000%float)
                    {| wallets := [] |}))).
  { apply reachable_call. apply (reachable_init str_lower JNull). reflexivity. }
  split; [exact Hreach|].
  apply (create_wallet_outcomes str_lower _ "PERSONAL" "EUR" 0%float Hreach).
  exists {| Models.name := "Personal"; Models.currency := "USD";
            Models.balance := 1000%float; expenses := [] |}.
  split; [now left | reflexivity].
Defined.

End WalletCreation.

Lemma failed_call_leaves_state_witness :
  let self := {| Manager.wallets :=
                   [("personal", {| Models.name := "Personal";
                                    Models.currency := "USD";
                                    Models.balance := 1000%float;
                                    Models.expenses := [] |})] |} in
  fst (Api.call Api.str_lower
         (Api.AddExpense "Travel" "Hotel" 200%float "lodging") self)
  = Raise (WalletNotFoundError "Travel") /\
  snd (Api.call Api.str_lower
         (Api.AddExpense "Travel" "Hotel" 200%float "lodging") self) = self.
Proof.
  split; [reflexivity|].
  apply (failed_call_leaves_state Api.str_lower
           (Api.AddExpense "Travel" "Hotel" 200%float "lodging") _
           (WalletNotFoundError "Travel")).
  reflexivity.
Defined.

(** ** The wallet report *)

Section WalletReports.
Import Models Manager Api.

Lemma convert_same (x : float) (c : string) :
  Currency.supported c -> Currency.convert x c c = Ok x.
Proof.
  intros Hc. destruct (supported_rate c Hc) as [r Hr].
  rewrite (convert_supported x c c r r Hr Hr). now rewrite String.eqb_refl.
Qed.

Lemma report_expenses_same (c : string) (es : list Expense) :
  Currency.supported c ->
  report_expenses c c es = Ok (map unconverted_line es).
Proof.
  intros Hc. induction es as [|e es IH]; simpl; [reflexivity|].
  rewrite (convert_same _ c Hc), IH. reflexivity.
Qed.

Lemma wallet_report_run (lower : string -> string) (wallet_name : string)
  (target_currency : option string) (self : ExpenseManager) :
  wallet_report lower wallet_name target_currency self =
  (match Dict.get (wallets self) (lower wallet_name) with
   | None => Raise (WalletNotFoundError wallet_name)
   | Some wallet =>
       let target := target_or target_currency wallet in
       (Currency.validate_currency target ;;;
        balance_in_target <-
          Currency.convert (balance wallet) (currency wallet) target ;;
        lines <- report_expenses (currency wallet) target (expenses wallet) ;;
        Ok {| WalletReport.wallet := name wallet;
              WalletReport.wallet_currency := currency wallet;
              WalletReport.balance := balance wallet;
              WalletReport.balance_in_target := balance_in_target;
              WalletReport.expenses := lines;
              WalletReport.target_currency := target |})%result
   end, self).
Proof.
  unfold wallet_report, bind. rewrite get_wallet_run.
  destruct (Dict.get (wallets self) (lower wallet_name)) as [w|]; [|reflexivity].
  unfold lift, ret. simpl.
  destruct (Currency.validate_currency (target_or target_currency w));
    [|reflexivity]. simpl.
  destruct (Currency.convert (balance w) (currency w)
              (target_or target_currency w)); [|reflexivity]. simpl.
  destruct (report_expenses (currency w) (target_or target_currency w)
              (expenses w)); reflexivity.
Qed.

(** C7, as the code has it. In every manager state and for every registered
    wallet whose currency is a supported one, [wallet_report] called without
    a target currency returns a report whose [target_currency] is the
    wallet's own currency and whose [balance_in_target] is the wallet's
    balance itself (every expense line likewise carries its amount
    unconverted); when the wallet's currency is not supported the call
    raises [CurrencyNotSupportedError] for it; and for a name under which,
    up to case, no wallet is registered it raises [WalletNotFoundError],
    whatever the target. *)
Theorem wallet_report_default_target (lower : string -> string)
  (self : ExpenseManager) (wallet_name : string) :
  reachable lower self ->
  (forall wallet : Wallet,
     In wallet (Dict.values (wallets self)) ->
     lower (name wallet) = lower wallet_name ->
     (Currency.supported (currency wallet) ->
      wallet_report lower wallet_name None self =
      (Ok {| WalletReport.wallet := name wallet;
             WalletReport.wallet_currency := currency wallet;
             WalletReport.balance := balance wallet;
             WalletReport.balance_in_target := balance wallet;
             WalletReport.expenses := map unconverted_line (expenses wallet);
             WalletReport.target_currency := currency wallet |}, self)) /\
     (~ Currency.supported (currency wallet) ->
      wallet_report lower wallet_name None self =
      (Raise (CurrencyNotSupportedError (currency wallet)), self))) /\
  (~ registered lower self wallet_name ->
   forall target_currency : option string,
     wallet_report lower wallet_name target_currency self =
     (Raise (WalletNotFoundError wallet_name), self)).
Proof.
  intros Hreach.
  pose proof (reachable_well_keyed lower self Hreach) as Hwk.
  pose proof (registered_iff_get lower self wallet_name Hwk) as Hreg.
  split.
  - intros wallet Hin Hname.
    assert (Hget : Dict.get (wallets self) (lower wallet_name) = Some wallet).
    { destruct Hwk as [Hk Hnd]. rewrite Forall_forall in Hk.
      unfold Dict.values in Hin. apply in_map_iff in Hin.
      destruct Hin as ([k w] & Hw & Hin). simpl in Hw. subst w.
      apply dict_in_get; [exact Hnd|].
      specialize (Hk _ Hin). simpl in Hk. now rewrite <- Hname, <- Hk. }
    rewrite wallet_report_run, Hget. simpl. split; intros Hc.
    + rewrite (validate_supported _ Hc). simpl.
      rewrite (convert_same _ _ Hc). simpl.
      now rewrite (report_expenses_same _ _ Hc).
    + now rewrite (validate_unsupported _ Hc).
  - intros Hnot target_currency. rewrite wallet_report_run.
    destruct (Dict.get (wallets self) (lower wallet_name)) as [w|] eqn:E;
      [|reflexivity].
    exfalso. apply Hnot, Hreg. eauto.
Qed.

End WalletReports.

Section WalletReportExamples.
Import Models Manager Api SampleData.

Lemma sample_manager_reachable : reachable str_lower create_sample_manager.
Proof.
  unfold create_sample_manager, sample_calls. cbn [fold_left].
  do 4 apply reachable_call.
  apply (reachable_init str_lower JNull). reflexivity.
Qed.

Lemma wallet_report_default_target_witness :
  reachable str_lower create_sample_manager /\
  wallet_report str_lower "TRAVEL" None create_sample_manager =
  (Ok {| WalletReport.wallet := "Travel";
         WalletReport.wallet_currency := "EUR";
         WalletReport.balance := 300%float;
         WalletReport.balance_in_target := 300%float;
         WalletReport.expenses :=
           [ {| ExpenseLine.description := "Hotel";
                ExpenseLine.amount := 200%float;
                ExpenseLine.category := "lodging";
                ExpenseLine.amount_in_target := 200%float |} ];
         WalletReport.target_currency := "EUR" |}, create_sample_manager).
Proof.
  split; [exact sample_manager_reachable|].
  refine (proj1 (proj1 (wallet_report_default_target str_lower
                          create_sample_manager "TRAVEL"
                          sample_manager_reachable)
                   {| name := "Travel"; currency := "EUR"; balance := 300%float;
                      expenses := [ {| description := "Hotel";
                                       amount := 200%float;
                                       category := "lodging" |} ] |} _ _) _).
  - vm_compute. right. left. reflexivity.
  - reflexivity.
  - in_table.
Defined.

(** A wallet loaded from a snapshot keeps the currency code of the snapshot,
    supported or not: the constructor does not validate it. For such a
    wallet the default report raises. *)
Lemma wallet_report_default_raises_for_foreign_wallet :
  exists (self : ExpenseManager) (wallet : Wallet),
    __init__ str_lower foreign_snapshot = Ok self /\
    reachable str_lower self /\
    get_wallet str_lower "Cash" self = (Ok wallet, self) /\
    currency wallet = "BTC" /\
    wallet_report str_lower "Cash" None self
    = (Raise (CurrencyNotSupportedError "BTC"), self).
Proof.
  eexists. eexists.
  split; [reflexivity|]. split; [|split; [reflexivity|split; reflexivity]].
  apply (reachable_init str_lower foreign_snapshot). reflexivity.
Qed.

End WalletReportExamples.

(** ** The consolidated dashboard *)

Section Dashboards.
Import Models Manager Api.

Lemma dashboard_loop_ok (target : string) (ws : list Wallet) :
  Currency.supported target ->
  Forall (fun w => Currency.supported (currency w)) ws ->
  forall (tb ts : float) (acc : list WalletSummary.t),
  exists sums : list WalletSummary.t,
    Forall2 (summarizes target) ws sums /\
    dashboard_loop target ws tb ts acc =
    Ok (fold_left PrimFloat.add (map WalletSummary.balance_in_target sums) tb,
        fold_left PrimFloat.add (map WalletSummary.total_spent_in_target sums) ts,
        acc ++ sums).
Proof.
  intros Ht Hws. induction Hws as [|w ws Hw _ IH]; intros tb ts acc.
  - exists []. split; [constructor|]. simpl. now rewrite app_nil_r.
  - destruct (convert_supported_ok (balance w) _ _ Hw Ht) as [cb Hcb].
    destruct (convert_supported_ok (total_spent w) _ _ Hw Ht) as [cs Hcs].
    simpl. rewrite Hcb, Hcs. simpl.
    match goal with
    | |- context [dashboard_loop target ws ?tb' ?ts' (acc ++ [?s])] =>
        destruct (IH tb' ts' (acc ++ [s])) as (sums & Hsums & Hloop);
        exists (s :: sums)
    end.
    split.
    + constructor; [|exact Hsums]. repeat split; assumption.
    + rewrite Hloop. simpl. now rewrite <- app_assoc.
Qed.

(** The first wallet in a currency outside the table stops the loop. *)
Lemma dashboard_loop_raises (target : string) (ws : list Wallet) :
  Currency.supported target ->
  Exists (fun w => ~ Currency.supported (currency w)) ws ->
  forall (tb ts : float) (acc : list WalletSummary.t),
  exists c : string,
    ~ Currency.supported c /\
    dashboard_loop target ws tb ts acc = Raise (CurrencyNotSupportedError c).
Proof.
  intros Ht. induction ws as [|w ws IH]; intros Hex tb ts acc.
  - inversion Hex.
  - simpl. destruct (supported_dec (currency w)) as [Hw|Hw].
    + destruct (convert_supported_ok (balance w) _ _ Hw Ht) as [cb Hcb].
      destruct (convert_supported_ok (total_spent w) _ _ Hw Ht) as [cs Hcs].
      rewrite Hcb, Hcs. simpl. apply IH.
      inversion Hex; subst; [contradiction | assumption].
    + exists (currency w). split; [exact Hw|].
      now rewrite (convert_unsupported_from _ _ _ Hw).
Qed.

Lemma consolidated_dashboard_run (target : string) (self : ExpenseManager) :
  consolidated_dashboard target self =
  ((Currency.validate_currency target ;;;
    totals <- dashboard_loop target (Dict.values (wallets self))
                0.0%float 0.0%float [] ;;
    let '(total_balance, total_spent, wallets_summary) := totals in
    Ok {| Dashboard.target_currency := target;
          Dashboard.total_balance := total_balance;
          Dashboard.total_spent := total_spent;
          Dashboard.net_position := (total_balance - total_spent)%float;
          Dashboard.wallets := wallets_summary;
          Dashboard.supported_currencies := Currency.list_supported_currencies |}
   )%result, self).
Proof.
  unfold consolidated_dashboard, bind, lift, list_wallets, read_wallets, ret.
  destruct (Currency.validate_currency target); [|reflexivity]. simpl.
  destruct (dashboard_loop target (Dict.values (wallets self)) 0 0 [])
    as [[[tb ts] summary]|e]; reflexivity.
Qed.

(** C2, as the code has it. For every manager state:
    - for a supported target and wallets that are all in supported
      currencies, [consolidated_dashboard(target)] returns a report with the
      target currency, one line per wallet in [list_wallets()] order that
      carries the wallet's name, currency, balance and [total_spent()] and
      their conversions into the target, [total_balance] the sum of the
      converted balances and [total_spent] the sum of the converted spends
      (both accumulated from 0.0 in that order), [net_position] equal to
      [total_balance - total_spent], and the whole currency table;
    - for an unsupported target it raises [CurrencyNotSupportedError];
    - for a supported target and a wallet in an unsupported currency it
      raises [CurrencyNotSupportedError] as well.
    The state is unchanged in every case. *)
Theorem consolidated_dashboard_report (self : ExpenseManager) (target : string) :
  (Currency.supported target ->
   Forall (fun w => Currency.supported (currency w)) (Dict.values (wallets self)) ->
   exists report : Dashboard.t,
     consolidated_dashboard target self = (Ok report, self) /\
     list_wallets self = (Ok (Dict.values (wallets self)), self) /\
     Dashboard.target_currency report = target /\
     Forall2 (summarizes target) (Dict.values (wallets self))
       (Dashboard.wallets report) /\
     Dashboard.total_balance report =
       Models.sum (map WalletSummary.balance_in_target (Dashboard.wallets report)) /\
     Dashboard.total_spent report =
       Models.sum (map WalletSummary.total_spent_in_target
                     (Dashboard.wallets report)) /\
     Dashboard.net_position report =
       (Dashboard.total_balance report - Dashboard.total_spent report)%float /\
     Dashboard.supported_currencies report = Currency.SUPPORTED_CURRENCIES) /\
  (~ Currency.supported target ->
   consolidated_dashboard target self
   = (Raise (CurrencyNotSupportedError target), self)) /\
  (Currency.supported target ->
   Exists (fun w => ~ Currency.supported (currency w)) (Dict.values (wallets self)) ->
   exists c : string,
     ~ Currency.supported c /\
     consolidated_dashboard target self
     = (Raise (CurrencyNotSupportedError c), self)).
Proof.
  rewrite consolidated_dashboard_run. split; [|split].
  - intros Ht Hws. rewrite (validate_supported _ Ht). simpl.
    destruct (dashboard_loop_ok target _ Ht Hws 0.0%float 0.0%float [])
      as (sums & Hsums & Hloop).
    rewrite Hloop. simpl. eexists. split; [reflexivity|]. simpl.
    repeat split; try reflexivity. exact Hsums.
  - intros Ht. now rewrite (validate_unsupported _ Ht).
  - intros Ht Hex. rewrite (validate_supported _ Ht). simpl.
    destruct (dashboard_loop_raises target _ Ht Hex 0.0%float 0.0%float [])
      as (c & Hc & Hloop).
    exists c. split; [exact Hc|]. now rewrite Hloop.
Qed.

End Dashboards.

Section DashboardExamples.
Import Models Manager Api SampleData.

Lemma consolidated_dashboard_report_witness :
  Currency.supported "USD" /\
  Forall (fun w => Currency.supported (currency w))
    (Dict.values (wallets create_sample_manager)) /\
  exists report : Dashboard.t,
    consolidated_dashboard "USD" create_sample_manager
    = (Ok report, create_sample_manager) /\
    list_wallets create_sample_manager
    = (Ok (Dict.values (wallets create_sample_manager)), create_sample_manager) /\
    Dashboard.target_currency report = "USD" /\
    Forall2 (summarizes "USD") (Dict.values (wallets create_sample_manager))
      (Dashboard.wallets report) /\
    Dashboard.total_balance report =
      Models.sum (map WalletSummary.balance_in_target (Dashboard.wallets report)) /\
    Dashboard.total_spent report =
      Models.sum (map WalletSummary.total_spent_in_target
                    (Dashboard.wallets report)) /\
    Dashboard.net_position report =
      (Dashboard.total_balance report - Dashboard.total_spent report)%float /\
    Dashboard.supported_currencies report = Currency.SUPPORTED_CURRENCIES.
Proof.
  assert (Husd : Currency.supported "USD")
    by in_table.
  assert (Hall : Forall (fun w => Currency.supported (currency w))
                   (Dict.values (wallets create_sample_manager))).
  { repeat constructor; in_table. }
  split; [exact Husd|]. split; [exact Hall|].
  exact (proj1 (consolidated_dashboard_report create_sample_manager "USD")
           Husd Hall).
Defined.

(** The scenario of [test_consolidated_dashboard]: a USD wallet of 1000 with
    a spend of 120 and a EUR wallet of 500 with a spend of 200. The report
    in USD has two lines, a [total_spent] above 120, and a [net_position]
    that is [total_balance - total_spent]. *)
Example sample_dashboard_in_usd :
  exists report : Dashboard.t,
    fst (consolidated_dashboard "USD" create_sample_manager) = Ok report /\
    List.length (Dashboard.wallets report) = 2 /\
    Dashboard.total_spent report = (0.0 + 120 + 200 / 0.92 * 1.0)%float /\
    PrimFloat.ltb 120%float (Dashboard.total_spent report) = true /\
    Dashboard.net_position report
    = (Dashboard.total_balance report - Dashboard.total_spent report)%float.
Proof.
  eexists. split; [vm_compute; reflexivity|].
  repeat split; vm_compute; reflexivity.
Qed.

(** The demo data of [sample_data.py], reported in USD: the totals are the
    numbers that [tests/test_cli.py] expects. *)
Example demo_dashboard_golden_totals :
  exists (self : ExpenseManager) (report : Dashboard.t),
    __init__ str_lower load_demo_data = Ok self /\
    fst (consolidated_dashboard "USD" self) = Ok report /\
    Dashboard.total_balance report = 2457.7639751552797%float /\
    Dashboard.total_spent report = 1067.391304347826%float /\
    Dashboard.net_position report = 1390.3726708074537%float.
Proof.
  eexists. eexists. split; [vm_compute; reflexivity|].
  split; [vm_compute; reflexivity|].
  repeat split; vm_compute; reflexivity.
Qed.

(** A supported target is not enough: a wallet loaded from a snapshot in a
    currency outside the table makes the dashboard raise. *)
Lemma consolidated_dashboard_raises_for_foreign_wallet :
  exists self : ExpenseManager,
    __init__ str_lower foreign_snapshot = Ok self /\
    reachable str_lower self /\
    Currency.supported "USD" /\
    consolidated_dashboard "USD" self
    = (Raise (CurrencyNotSupportedError "BTC"), self).
Proof.
  eexists. split; [reflexivity|]. split; [|split; [|reflexivity]].
  - apply (reachable_init str_lower foreign_snapshot). reflexivity.
  - in_table.
Qed.

End DashboardExamples.

(** ** Serialization *)

Section Serialization.
Import Models Manager Api.
Variable lower : string -> string.

Lemma parse_asdict (e : Expense) : parse_expense (asdict e) = Ok e.
Proof. destruct e. reflexivity. Qed.

Lemma parse_expenses_asdict (es : list Expense) :
  parse_expenses (map asdict es) = Ok es.
Proof.
  induction es as [|e es IH]; cbn [parse_expenses map]; [reflexivity|].
  rewrite parse_asdict, IH. reflexivity.
Qed.

Lemma parse_wallet_to_dict (w : Wallet) : parse_wallet (wallet_to_dict w) = Ok w.
Proof.
  destruct w as [n c b es]. unfold parse_wallet, wallet_to_dict. simpl.
  rewrite parse_expenses_asdict. reflexivity.
Qed.

Lemma parse_all_to_dict (ws : list Wallet) :
  Forall2 (fun d w => parse_wallet d = Ok w) (map wallet_to_dict ws) ws.
Proof.
  induction ws as [|w ws IH]; simpl; constructor;
    [apply parse_wallet_to_dict | exact IH].
Qed.

(** Registering the wallets of a well-keyed registry, in its order, builds
    that registry again. *)
Lemma register_all_values (d acc : list (string * Wallet)) :
  well_keyed lower (acc ++ d) ->
  register_all lower (Dict.values d) acc = acc ++ d.
Proof.
  revert acc. induction d as [|[k w] d IH]; intros acc Hwk; simpl.
  - now rewrite app_nil_r.
  - destruct Hwk as [Hk Hnd].
    assert (Hkw : k = lower (name w)).
    { rewrite Forall_forall in Hk. apply (Hk (k, w)).
      apply in_or_app. right. now left. }
    assert (Hfresh : Dict.get acc k = None).
    { apply dict_get_none. unfold Dict.keys in *. rewrite map_app in Hnd.
      simpl in Hnd. apply NoDup_remove_2 in Hnd.
      intros Hin. apply Hnd. apply in_or_app. now left. }
    rewrite <- Hkw, (dict_set_fresh _ _ _ Hfresh).
    rewrite IH; rewrite <- app_assoc; simpl; [reflexivity|].
    split; assumption.
Qed.

Lemma asdict_shape (e : Expense) : expense_shape (asdict e).
Proof. exists (description e), (amount e), (category e). reflexivity. Qed.

Lemma wallet_to_dict_shape (w : Wallet) : wallet_shape (wallet_to_dict w).
Proof.
  exists (name w), (currency w), (balance w), (map asdict (expenses w)).
  split; [reflexivity|]. apply Forall_forall. intros v Hv.
  apply in_map_iff in Hv. destruct Hv as (e & <- & _). apply asdict_shape.
Qed.

(** C9. For every manager state, [to_dict()] returns a structure of the
    shape [{wallets: [{name, currency, balance, expenses: [{description,
    amount, category}, ...]}, ...]}], one entry per wallet in registry
    order, and a manager constructed from that structure has the same
    registry; and constructing a manager from [{"wallets": []}] and
    serializing it gives [{"wallets": []}] back. *)
Theorem to_dict_round_trip (self : ExpenseManager) :
  reachable lower self ->
  (exists snapshot : json,
     to_dict self = (Ok snapshot, self) /\
     snapshot =
       JDict [("wallets", JList (map wallet_to_dict (Dict.values (wallets self))))] /\
     snapshot_shape snapshot /\
     __init__ lower snapshot = Ok self) /\
  (exists empty : ExpenseManager,
     __init__ lower (JDict [("wallets", JList [])]) = Ok empty /\
     to_dict empty = (Ok (JDict [("wallets", JList [])]), empty)).
Proof.
  intros Hreach. split.
  - eexists. split; [apply to_dict_run|]. split; [reflexivity|]. split.
    + eexists. split; [reflexivity|]. apply Forall_forall. intros v Hv.
      apply in_map_iff in Hv. destruct Hv as (w & <- & _).
      apply wallet_to_dict_shape.
    + unfold __init__. simpl.
      rewrite (load_wallets_ok lower _ _ [] (parse_all_to_dict _)). simpl.
      rewrite register_all_values.
      * destruct self. reflexivity.
      * now apply reachable_well_keyed.
  - exists {| wallets := [] |}. split; reflexivity.
Qed.

End Serialization.

Lemma to_dict_round_trip_witness :
  Api.reachable Api.str_lower SampleData.create_sample_manager /\
  (exists snapshot : json,
     Manager.to_dict SampleData.create_sample_manager
     = (Ok snapshot, SampleData.create_sample_manager) /\
     snapshot =
       JDict [("wallets",
               JList (map Manager.wallet_to_dict
                        (Dict.values
                           (Manager.wallets SampleData.create_sample_manager))))] /\
     Api.snapshot_shape snapshot /\
     Manager.__init__ Api.str_lower snapshot
     = Ok SampleData.create_sample_manager).
Proof.
  split; [exact sample_manager_reachable|].
  exact (proj1 (to_dict_round_trip Api.str_lower SampleData.create_sample_manager
                  sample_manager_reachable)).
Defined.

(** ** Duplicate names in a snapshot *)

Section DuplicateNames.
Import Models Manager Api.
Variable lower : string -> string.

Lemma dict_set_length {V : Type} (d : list (string * V)) (k : string) (v : V) :
  List.length (Dict.set d k v) =
  if Dict.contains d k then List.length d else S (List.length d).
Proof.
  unfold Dict.contains. destruct (Dict.get d k) as [v0|] eqn:E.
  - revert E. induction d as [|[k0 v0'] rest IH]; simpl; [discriminate|].
    destruct (String.eqb k k0); simpl; [reflexivity|].
    intros H. now rewrite IH.
  - rewrite (dict_set_fresh _ _ _ E), length_app. simpl. lia.
Qed.

Lemma register_all_app (a b : list Wallet) (acc : list (string * Wallet)) :
  register_all lower (a ++ b) acc = register_all lower b (register_all lower a acc).
Proof. unfold register_all. apply fold_left_app. Qed.

Lemma register_all_length (ws : list Wallet) (acc : list (string * Wallet)) :
  List.length (register_all lower ws acc) <= List.length acc + List.length ws.
Proof.
  revert acc. induction ws as [|w ws IH]; intros acc; simpl; [lia|].
  specialize (IH (Dict.set acc (lower (name w)) w)).
  rewrite dict_set_length in IH.
  destruct (Dict.contains acc (lower (name w))); lia.
Qed.

Lemma register_all_keeps_key (ws : list Wallet) (acc : list (string * Wallet))
  (k : string) :
  Dict.contains acc k = true -> Dict.contains (register_all lower ws acc) k = true.
Proof.
  revert acc. induction ws as [|w ws IH]; intros acc H; simpl; [exact H|].
  apply IH. unfold Dict.contains in *.
  destruct (String.eqb_spec k (lower (name w))) as [->|Hne].
  - now rewrite dict_get_set_same.
  - now rewrite dict_get_set_other.
Qed.

Lemma register_all_get_untouched (ws : list Wallet) (acc : list (string * Wallet))
  (k : string) :
  Forall (fun w => lower (name w) <> k) ws ->
  Dict.get (register_all lower ws acc) k = Dict.get acc k.
Proof.
  intros H. revert acc. induction H as [|w ws Hw _ IH]; intros acc; simpl.
  - reflexivity.
  - rewrite IH. apply dict_get_set_other. congruence.
Qed.

Lemma wallet_to_dict_inj (w w' : Wallet) :
  wallet_to_dict w = wallet_to_dict w' -> w = w'.
Proof.
  intros H. pose proof (parse_wallet_to_dict w) as Hw.
  rewrite H, parse_wallet_to_dict in Hw. congruence.
Qed.

(** C10. A snapshot in which two entries have names that are equal when
    lower-cased is accepted by the constructor without an error, and of the
    entries under that key only the last one is kept: a lookup by either
    name returns it, no other wallet of the registry has that key, and the
    registry, and with it the re-serialized snapshot, is shorter than the
    snapshot that was read. *)
Theorem init_keeps_later_duplicate (items : list json)
  (before between after : list Wallet) (w1 w2 : Wallet) :
  Forall2 (fun d w => parse_wallet d = Ok w) items
    (before ++ w1 :: between ++ w2 :: after) ->
  lower (name w1) = lower (name w2) ->
  Forall (fun w => lower (name w) <> lower (name w2)) after ->
  exists self : ExpenseManager,
    __init__ lower (JDict [("wallets", JList items)]) = Ok self /\
    get_wallet lower (name w1) self = (Ok w2, self) /\
    get_wallet lower (name w2) self = (Ok w2, self) /\
    (forall w, In w (Dict.values (wallets self)) ->
               lower (name w) = lower (name w2) -> w = w2) /\
    List.length (wallets self) < List.length items /\
    exists out : list json,
      to_dict self = (Ok (JDict [("wallets", JList out)]), self) /\
      List.length out < List.length items /\
      (forall w, In (wallet_to_dict w) out ->
                 lower (name w) = lower (name w2) -> w = w2).
Proof.
  intros Hparse Hkey Hafter.
  set (ws := before ++ w1 :: between ++ w2 :: after) in *.
  set (r := register_all lower ws []).
  assert (Hwk : well_keyed lower r)
    by apply well_keyed_register_all, well_keyed_nil.
  assert (Hget : Dict.get r (lower (name w2)) = Some w2).
  { unfold r, ws.
    rewrite register_all_app. simpl. rewrite register_all_app. simpl.
    rewrite (register_all_get_untouched after _ _ Hafter).
    apply dict_get_set_same. }
  assert (Honly : forall w, In w (Dict.values r) ->
                            lower (name w) = lower (name w2) -> w = w2).
  { intros w Hin Hw. destruct Hwk as [Hk Hnd]. rewrite Forall_forall in Hk.
    unfold Dict.values in Hin. apply in_map_iff in Hin.
    destruct Hin as ([k w'] & Heq & Hin). simpl in Heq. subst w'.
    pose proof (Hk _ Hin) as Hkw. simpl in Hkw.
    pose proof (dict_in_get _ _ _ Hnd Hin) as Hg.
    rewrite Hkw, Hw, Hget in Hg. congruence. }
  assert (Hlen : List.length r < List.length items).
  { rewrite (Forall2_length Hparse). unfold r, ws.
    rewrite register_all_app. simpl. rewrite register_all_app. simpl.
    set (r0 := register_all lower before []).
    set (r1 := register_all lower between (Dict.set r0 (lower (name w1)) w1)).
    assert (Hin1 : Dict.contains r1 (lower (name w2)) = true).
    { unfold r1. apply register_all_keeps_key. unfold Dict.contains.
      now rewrite <- Hkey, dict_get_set_same. }
    pose proof (register_all_length after (Dict.set r1 (lower (name w2)) w2)) as H3.
    rewrite dict_set_length, Hin1 in H3.
    pose proof (register_all_length between
                  (Dict.set r0 (lower (name w1)) w1)) as H2.
    fold r1 in H2. rewrite dict_set_length in H2.
    pose proof (register_all_length before []) as H1. fold r0 in H1.
    simpl in H1. rewrite !length_app. simpl. rewrite length_app. simpl.
    destruct (Dict.contains r0 (lower (name w1))); lia. }
  exists {| wallets := r |}. split; [|split; [|split; [|split; [|split]]]].
  - unfold __init__. simpl.
    now rewrite (load_wallets_ok lower _ _ [] Hparse).
  - rewrite get_wallet_run. simpl. now rewrite Hkey, Hget.
  - rewrite get_wallet_run. simpl. now rewrite Hget.
  - exact Honly.
  - exact Hlen.
  - eexists. split; [apply to_dict_run|]. simpl. split.
    + unfold Dict.values. now rewrite !length_map.
    + intros w Hin. apply in_map_iff in Hin.
      destruct Hin as (w' & Heq & Hin). apply wallet_to_dict_inj in Heq.
      subst w'. now apply Honly.
Qed.

End DuplicateNames.

Lemma init_keeps_later_duplicate_witness :
  let first := {| Models.name := "Cash"; Models.currency := "USD";
                  Models.balance := 10%float; Models.expenses := [] |} in
  let second := {| Models.name := "CASH"; Models.currency := "EUR";
                   Models.balance := 20%float; Models.expenses := [] |} in
  let items := [Manager.wallet_to_dict first; Manager.wallet_to_dict second] in
  exists self : Manager.ExpenseManager,
    Manager.__init__ Api.str_lower (JDict [("wallets", JList items)]) = Ok self /\
    Manager.get_wallet Api.str_lower "Cash" self = (Ok second, self) /\
    Manager.to_dict self
    = (Ok (JDict [("wallets", JList [Manager.wallet_to_dict second])]), self).
Proof.
  intros first second items.
  destruct (init_keeps_later_duplicate Api.str_lower items [] [] [] first second)
    as (self & Hinit & Hget & _).
  - repeat constructor.
  - reflexivity.
  - constructor.
  - exists self. split; [exact Hinit|]. split; [exact Hget|].
    vm_compute in Hinit. injection Hinit as <-. reflexivity.
Defined.

(** ** Rounding of binary64 results

    [binary_round_aux] is the rounding step that the float specification
    shares between multiplication and division. On a result in the normal
    range it returns a 53-bit mantissa within half a unit in the last place
    of the exact value. *)

Section Rounding.
Import SpecFloat Binary64.
Local Open Scope Z_scope.

Lemma shr_1_inbetween (m : Z) (r s : bool) (N D : Z) :
  0 <= m -> 0 < D ->
  inbetween m (loc_of_shr_record (Build_shr_record m r s)) N D ->
  shr_m (shr_1 (Build_shr_record m r s)) = m / 2 /\
  inbetween (m / 2) (loc_of_shr_record (shr_1 (Build_shr_record m r s))) N (2 * D).
Proof.
  intros Hm HD H.
  assert (Hcases : (exists p, m = 2 * p /\ shr_1 (Build_shr_record m r s)
                       = Build_shr_record p false (r || s)) \/
                   (exists p, m = 2 * p + 1 /\ shr_1 (Build_shr_record m r s)
                       = Build_shr_record p true (r || s))).
  { destruct m as [|[q|q|]|q]; try lia.
    - left. exists 0. split; reflexivity.
    - right. exists (Zpos q). split; [lia | reflexivity].
    - left. exists (Zpos q). split; [lia | reflexivity].
    - right. exists 0. split; reflexivity. }
  destruct Hcases as [(p & -> & ->)|(p & -> & ->)]; simpl shr_m.
  - replace (2 * p / 2) with p by (symmetry; rewrite Z.mul_comm; apply Z.div_mul; lia).
    split; [reflexivity|].
    destruct r, s; cbv [inbetween loc_of_shr_record orb] in *.
    + destruct H as [H1 H2]. split; [nia|]. apply Z.compare_lt_iff. nia.
    + destruct H as [H1 H2]. split; [nia|]. apply Z.compare_lt_iff. nia.
    + destruct H as [H1 H2]. split; [nia|]. apply Z.compare_lt_iff. nia.
    + nia.
  - replace ((2 * p + 1) / 2) with p
      by (apply (Z.div_unique _ 2 p 1); lia).
    split; [reflexivity|].
    destruct r, s; cbv [inbetween loc_of_shr_record orb] in *.
    + destruct H as [H1 H2]. split; [nia|]. apply Z.compare_gt_iff. nia.
    + destruct H as [H1 H2]. split; [nia|]. apply Z.compare_gt_iff. nia.
    + destruct H as [H1 H2]. split; [nia|]. apply Z.compare_gt_iff. nia.
    + split; [nia|]. apply Z.compare_eq_iff. nia.
Qed.

Lemma iter_pos_invariant {A : Type} (f : A -> A) (P : Z -> A -> Prop) :
  (forall k x, 0 <= k -> P k x -> P (k + 1) (f x)) ->
  forall p k x, 0 <= k -> P k x -> P (k + Zpos p) (iter_pos f p x).
Proof.
  intros Hstep. induction p as [p IH|p IH|]; intros k x Hk Hx; simpl.
  - replace (k + Zpos p~1) with (k + 1 + Zpos p + Zpos p) by lia.
    apply IH; [lia|]. apply IH; [lia|]. now apply Hstep.
  - replace (k + Zpos p~0) with (k + Zpos p + Zpos p) by lia.
    apply IH; [lia|]. now apply IH.
  - now apply Hstep.
Qed.

Lemma loc_of_record_of_loc (m : Z) (l : location) :
  loc_of_shr_record (shr_record_of_loc m l) = l /\
  shr_m (shr_record_of_loc m l) = m.
Proof. destruct l as [|[| |]]; split; reflexivity. Qed.

Lemma shr_spec (m : Z) (l : location) (e n N D : Z) :
  0 <= m -> 0 < D -> 0 <= n -> inbetween m l N D ->
  exists mrs,
    shr (shr_record_of_loc m l) e n = (mrs, e + n) /\
    shr_m mrs = m / 2 ^ n /\
    inbetween (shr_m mrs) (loc_of_shr_record mrs) N (2 ^ n * D).
Proof.
  intros Hm HD Hn Hin.
  destruct (loc_of_record_of_loc m l) as [Hl Hmm].
  destruct n as [|p|p]; [| |lia].
  - exists (shr_record_of_loc m l). unfold shr.
    rewrite Z.add_0_r, Hl, Hmm, Z.pow_0_r, Z.div_1_r, Z.mul_1_l.
    split; [reflexivity|]. split; [reflexivity|]. exact Hin.
  - exists (iter_pos shr_1 p (shr_record_of_loc m l)).
    split; [reflexivity|].
    pose (P := fun (k : Z) (mrs : shr_record) =>
                 shr_m mrs = m / 2 ^ k /\
                 inbetween (shr_m mrs) (loc_of_shr_record mrs) N (2 ^ k * D)).
    assert (HP : P (0 + Zpos p) (iter_pos shr_1 p (shr_record_of_loc m l))).
    { apply (iter_pos_invariant shr_1 P).
      - intros k [m0 r0 s0] Hk [H1 H2]. simpl shr_m in *.
        assert (H0 : 0 <= m0) by (rewrite H1; apply Z.div_pos; lia).
        assert (HD' : 0 < 2 ^ k * D) by nia.
        destruct (shr_1_inbetween m0 r0 s0 N (2 ^ k * D) H0 HD' H2) as [H3 H4].
        unfold P. rewrite H3. split.
        + rewrite H1, Z.pow_add_r, Z.pow_1_r by lia.
          apply Z.div_div; lia.
        + rewrite Z.pow_add_r, Z.pow_1_r by lia.
          replace (2 ^ k * 2 * D) with (2 * (2 ^ k * D)) by ring. exact H4.
      - lia.
      - unfold P. rewrite Hl, Hmm, Z.pow_0_r, Z.div_1_r, Z.mul_1_l. auto. }
    exact HP.
Qed.

Lemma digits2_pos_bounds (p : positive) :
  2 ^ (Zpos (digits2_pos p) - 1) <= Zpos p < 2 ^ Zpos (digits2_pos p).
Proof.
  induction p as [p IH|p IH|]; simpl digits2_pos.
  - rewrite Pos2Z.inj_succ.
    replace (Z.succ (Zpos (digits2_pos p)) - 1) with (Z.succ (Zpos (digits2_pos p) - 1)) by lia.
    rewrite !Z.pow_succ_r by lia. lia.
  - rewrite Pos2Z.inj_succ.
    replace (Z.succ (Zpos (digits2_pos p)) - 1) with (Z.succ (Zpos (digits2_pos p) - 1)) by lia.
    rewrite !Z.pow_succ_r by lia. lia.
  - simpl. lia.
Qed.

Lemma digits2_pos_unique (p : positive) (k : Z) :
  2 ^ (k - 1) <= Zpos p < 2 ^ k -> Zpos (digits2_pos p) = k.
Proof.
  intros [H1 H2]. pose proof (digits2_pos_bounds p) as [H3 H4].
  set (d := Zpos (digits2_pos p)) in *.
  assert (Hk : 0 < k).
  { destruct (Z_lt_le_dec 0 k) as [H|H]; [exact H|].
    exfalso. destruct k as [|q|q]; simpl in H2; lia. }
  destruct (Z.lt_trichotomy d k) as [Hlt|[Heq|Hgt]]; [|exact Heq|].
  - exfalso. assert (2 ^ d <= 2 ^ (k - 1)) by (apply Z.pow_le_mono_r; lia). lia.
  - exfalso. assert (2 ^ k <= 2 ^ (d - 1)) by (apply Z.pow_le_mono_r; lia). lia.
Qed.

Lemma round_nearest_even_spec (m1 : Z) (l : location) (N D : Z) :
  0 < D -> inbetween m1 l N D ->
  let m2 := round_nearest_even m1 l in
  m1 <= m2 <= m1 + 1 /\ m1 * D <= N /\ 2 * Z.abs (m2 * D - N) <= D.
Proof.
  intros HD H. destruct l as [|[| |]]; cbv [inbetween round_nearest_even] in *.
  - subst N. split; [lia|]. split; [lia|].
    replace (m1 * D - m1 * D) with 0 by ring. simpl. lia.
  - destruct H as [H1 H2]. apply Z.compare_eq_iff in H2.
    destruct (Z.even m1).
    + split; [lia|]. split; [lia|]. rewrite Z.abs_neq by nia. nia.
    + split; [lia|]. split; [lia|]. rewrite Z.abs_eq by nia. nia.
  - destruct H as [H1 H2]. change (2 * N < (2 * m1 + 1) * D) in H2.
    split; [lia|]. split; [lia|]. rewrite Z.abs_neq by nia. nia.
  - destruct H as [H1 H2]. change (2 * N > (2 * m1 + 1) * D) in H2.
    split; [lia|]. split; [lia|]. rewrite Z.abs_eq by nia. nia.
Qed.

Lemma fexp_normal (x : Z) : -1074 <= x - 53 -> fexp 53 1024 x = x - 53.
Proof. intros H. unfold fexp, emin. lia. Qed.

Lemma binary_round_aux_normal (sx : bool) (m : positive) (e : Z) (l : location)
  (N D : Z) :
  0 < D -> inbetween (Zpos m) l N D ->
  53 <= Zpos (digits2_pos m) ->
  -1074 <= Zpos (digits2_pos m) + e - 53 ->
  Zpos (digits2_pos m) + e <= 1023 ->
  exists (m' : positive) (k : Z),
    binary_round_aux 53 1024 sx (Zpos m) e l = S754_finite sx m' (e + k) /\
    Zpos (digits2_pos m) - 53 <= k <= Zpos (digits2_pos m) - 52 /\
    Zpos (digits2_pos m') = 53 /\
    Z.abs (Zpos m' * 2 ^ k * D - N) * 2 ^ 53 <= N.
Proof.
  intros HD Hin Hd Hlo Hhi.
  set (d := Zpos (digits2_pos m)) in *.
  set (n := d - 53).
  unfold binary_round_aux, shr_fexp.
  change (Zdigits2 (Zpos m)) with d.
  rewrite (fexp_normal (d + e)) by lia.
  replace (d + e - 53 - e) with n by (unfold n; lia).
  destruct (shr_spec (Zpos m) l e n N D) as (mrs1 & Hshr & Hm1 & Hin1);
    [lia | lia | unfold n; lia | exact Hin |].
  rewrite Hshr.
  set (m1 := shr_m mrs1) in *.
  set (D1 := 2 ^ n * D) in *.
  assert (Hpn : 0 < 2 ^ n) by (apply Z.pow_pos_nonneg; unfold n; lia).
  assert (HD1 : 0 < D1) by (unfold D1; nia).
  pose proof (digits2_pos_bounds m) as [Hb1 Hb2]. fold d in Hb1, Hb2.
  assert (Hm1b : 2 ^ 52 <= m1 < 2 ^ 53).
  { rewrite Hm1. split.
    - apply Z.div_le_lower_bound; [lia|].
      rewrite <- Z.pow_add_r by (unfold n; lia).
      replace (n + 52) with (d - 1) by (unfold n; lia). exact Hb1.
    - apply Z.div_lt_upper_bound; [lia|].
      rewrite <- Z.pow_add_r by (unfold n; lia).
      replace (n + 53) with d by (unfold n; lia). exact Hb2. }
  destruct (round_nearest_even_spec m1 (loc_of_shr_record mrs1) N D1 HD1 Hin1)
    as (Hm2 & HN & Herr).
  set (m2 := round_nearest_even m1 (loc_of_shr_record mrs1)) in *.
  assert (Hbound : Z.abs (m2 * D1 - N) * 2 ^ 53 <= N).
  { assert (2 ^ 52 * D1 <= N) by nia.
    change (2 ^ 53) with (2 * 2 ^ 52). nia. }
  destruct (Z_lt_le_dec m2 (2 ^ 53)) as [Hlt|Hge].
  - (* no carry *)
    destruct m2 as [|p2|p2] eqn:E2; [lia| |lia].
    assert (Hd2 : Zpos (digits2_pos p2) = 53)
      by (apply digits2_pos_unique; lia).
    change (Zdigits2 (Zpos p2)) with (Zpos (digits2_pos p2)).
    rewrite Hd2, (fexp_normal (53 + (e + n))) by (unfold n; lia).
    replace (53 + (e + n) - 53 - (e + n)) with 0 by lia.
    unfold shr. cbn [shr_record_of_loc shr_m].
    replace (e + n <=? 1024 - 53) with true
      by (symmetry; apply Z.leb_le; unfold n; lia).
    exists p2, n. split; [reflexivity|]. split; [unfold n; lia|].
    split; [exact Hd2|].
    unfold D1 in Hbound.
    replace (Zpos p2 * 2 ^ n * D) with (Zpos p2 * (2 ^ n * D)) by ring.
    exact Hbound.
  - (* the rounding carried into a 54th bit *)
    assert (E2 : m2 = 2 ^ 53) by lia.
    rewrite E2 in *.
    change (Zdigits2 (2 ^ 53)) with 54.
    rewrite (fexp_normal (54 + (e + n))) by (unfold n; lia).
    replace (54 + (e + n) - 53 - (e + n)) with 1 by lia.
    change (shr (shr_record_of_loc (2 ^ 53) loc_Exact) (e + n) 1)
      with ({| shr_m := 2 ^ 52; shr_r := false; shr_s := false |}, e + n + 1).
    cbn [shr_m]. change (2 ^ 52) with (Zpos (2 ^ 52)%positive) at 1.
    cbv iota beta.
    replace (e + n + 1 <=? 1024 - 53) with true
      by (symmetry; apply Z.leb_le; unfold n; lia).
    exists (2 ^ 52)%positive, (n + 1).
    split; [f_equal; lia|]. split; [unfold n; lia|].
    split; [reflexivity|].
    rewrite Z.pow_add_r, Z.pow_1_r by (unfold n; lia).
    change (Zpos (2 ^ 52)) with (2 ^ 52).
    replace (2 ^ 52 * (2 ^ n * 2) * D) with (2 ^ 53 * D1)
      by (unfold D1; change (2 ^ 53) with (2 ^ 52 * 2); ring).
    exact Hbound.
Qed.

Lemma normal53_bounds (m : positive) : normal53 m -> 2 ^ 52 <= Zpos m < 2 ^ 53.
Proof.
  unfold normal53. intros H. pose proof (digits2_pos_bounds m) as Hb.
  rewrite H in Hb. exact Hb.
Qed.

Lemma SFmul_normal (sx sy : bool) (mx my : positive) (ex ey : Z) :
  normal53 mx -> normal53 my ->
  -1126 <= ex + ey -> ex + ey <= 917 ->
  exists (m' : positive) (k : Z),
    SFmul 53 1024 (S754_finite sx mx ex) (S754_finite sy my ey)
    = S754_finite (xorb sx sy) m' (ex + ey + k) /\
    52 <= k <= 54 /\ normal53 m' /\
    Z.abs (Zpos m' * 2 ^ k - Zpos mx * Zpos my) * 2 ^ 53 <= Zpos mx * Zpos my.
Proof.
  intros Hx Hy Hlo Hhi.
  apply normal53_bounds in Hx, Hy.
  pose proof (digits2_pos_bounds (mx * my)) as [Hb1 Hb2].
  set (d := Zpos (digits2_pos (mx * my))) in *.
  rewrite Pos2Z.inj_mul in Hb1, Hb2.
  assert (Hp : 2 ^ 104 <= Zpos mx * Zpos my < 2 ^ 106).
  { change (2 ^ 104) with (2 ^ 52 * 2 ^ 52).
    change (2 ^ 106) with (2 ^ 53 * 2 ^ 53). nia. }
  assert (Hd : 105 <= d <= 106).
  { split.
    - destruct (Z_lt_le_dec d 105) as [H|H]; [|exact H]. exfalso.
      assert (2 ^ d <= 2 ^ 104) by (apply Z.pow_le_mono_r; lia). lia.
    - destruct (Z_lt_le_dec 106 d) as [H|H]; [|exact H]. exfalso.
      assert (2 ^ 106 <= 2 ^ (d - 1)) by (apply Z.pow_le_mono_r; lia). lia. }
  destruct (binary_round_aux_normal (xorb sx sy) (mx * my) (ex + ey) loc_Exact
              (Zpos mx * Zpos my) 1) as (m' & k & Hr & Hk & Hd' & Herr).
  - lia.
  - cbv [inbetween]. rewrite Pos2Z.inj_mul. ring.
  - fold d. lia.
  - fold d. lia.
  - fold d. lia.
  - exists m', k. fold d in Hk. split; [exact Hr|]. split; [lia|].
    split; [exact Hd'|]. rewrite Z.mul_1_r in Herr. exact Herr.
Qed.

Lemma new_location_inbetween (q r D : Z) :
  0 < D -> 0 <= r < D ->
  inbetween q (new_location D r) (q * D + r) D.
Proof.
  intros HD Hr. unfold new_location, new_location_even, new_location_odd.
  destruct (Z.even D) eqn:Hev.
  - destruct (Z.eqb_spec r 0) as [->|Hne]; cbv [inbetween].
    + ring.
    + split; [lia|].
      destruct (Z.compare_spec (2 * r) D) as [H|H|H].
      * apply Z.compare_eq_iff. lia.
      * apply Z.compare_lt_iff. lia.
      * apply Z.compare_gt_iff. lia.
  - assert (Hodd : Z.odd D = true) by (rewrite <- Z.negb_even, Hev; reflexivity).
    apply Z.odd_spec in Hodd. destruct Hodd as [h Hh].
    destruct (Z.eqb_spec r 0) as [->|Hne]; cbv [inbetween].
    + ring.
    + split; [lia|].
      destruct (Z.compare_spec (2 * r + 1) D) as [H|H|H].
      * apply Z.compare_lt_iff. lia.
      * apply Z.compare_lt_iff. lia.
      * apply Z.compare_gt_iff. lia.
Qed.

Lemma SFdiv_normal (sx sy : bool) (mx my : positive) (ex ey : Z) :
  normal53 mx -> normal53 my ->
  -1021 <= ex - ey -> ex - ey <= 1022 ->
  exists (m' : positive) (k : Z),
    SFdiv 53 1024 (S754_finite sx mx ex) (S754_finite sy my ey)
    = S754_finite (xorb sx sy) m' (ex - ey - 53 + k) /\
    0 <= k <= 2 /\ normal53 m' /\
    Z.abs (Zpos m' * 2 ^ k * Zpos my - Zpos mx * 2 ^ 53) * 2 ^ 53
    <= Zpos mx * 2 ^ 53.
Proof.
  intros Hx Hy Hlo Hhi.
  pose proof Hx as Hdx. pose proof Hy as Hdy. unfold normal53 in Hdx, Hdy.
  apply normal53_bounds in Hx, Hy.
  unfold SFdiv, SFdiv_core_binary.
  change (Zdigits2 (Zpos mx)) with (Zpos (digits2_pos mx)).
  change (Zdigits2 (Zpos my)) with (Zpos (digits2_pos my)).
  rewrite Hdx, Hdy.
  replace (53 + ex - (53 + ey)) with (ex - ey) by lia.
  rewrite (fexp_normal (ex - ey)) by lia.
  rewrite Z.min_l by lia.
  replace (ex - ey - (ex - ey - 53)) with 53 by lia.
  cbv iota beta.
  rewrite Z.shiftl_mul_pow2 by lia.
  pose proof (Z_div_mod (Zpos mx * 2 ^ 53) (Zpos my)) as Hdm.
  destruct (Z.div_eucl (Zpos mx * 2 ^ 53) (Zpos my)) as [q r].
  destruct Hdm as [Hq Hr]; [lia|].
  assert (Hqb : 2 ^ 52 <= q < 2 ^ 54).
  { change (2 ^ 54) with (2 * 2 ^ 53) in *. change (2 ^ 53) with (2 * 2 ^ 52) in *.
    split; nia. }
  destruct q as [|pq|pq]; [lia| |lia].
  pose proof (digits2_pos_bounds pq) as [Hb1 Hb2].
  set (d := Zpos (digits2_pos pq)) in *.
  assert (Hd : 53 <= d <= 54).
  { split.
    - destruct (Z_lt_le_dec d 53) as [H|H]; [|exact H]. exfalso.
      assert (2 ^ d <= 2 ^ 52) by (apply Z.pow_le_mono_r; lia). lia.
    - destruct (Z_lt_le_dec 54 d) as [H|H]; [|exact H]. exfalso.
      assert (2 ^ 54 <= 2 ^ (d - 1)) by (apply Z.pow_le_mono_r; lia). lia. }
  destruct (binary_round_aux_normal (xorb sx sy) pq (ex - ey - 53)
              (new_location (Zpos my) r) (Zpos mx * 2 ^ 53) (Zpos my))
    as (m' & k & Hres & Hk & Hd' & Herr).
  - lia.
  - rewrite Hq. rewrite (Z.mul_comm (Zpos my) (Zpos pq)).
    apply new_location_inbetween; lia.
  - fold d. lia.
  - fold d. lia.
  - fold d. lia.
  - exists m', k. fold d in Hk. split; [exact Hres|]. split; [lia|].
    split; [exact Hd'|exact Herr].
Qed.

End Rounding.

(** ** From mantissas and exponents to rational numbers *)

Section Magnitudes.
Import SpecFloat Binary64.
Local Open Scope Q_scope.

Lemma magnitude_pos (m : positive) (e : Z) : 0 < magnitude m e.
Proof.
  unfold magnitude. apply Qmult_lt_0_compat.
  - reflexivity.
  - apply Qpower_0_lt. reflexivity.
Qed.

Lemma ratio_bounds (A : Z) (n : positive) :
  (Z.abs (A - Zpos n) * 2 ^ 53 <= Zpos n)%Z ->
  1 - u53 <= A # n /\ A # n <= 1 + u53.
Proof.
  intros H. unfold u53, Qle. simpl Qnum. simpl Qden.
  change (Zpos (2 ^ 53)%positive) with (2 ^ 53)%Z in *.
  split; lia.
Qed.

Lemma pow2_inject (k : Z) : (0 <= k)%Z -> inject_Z (2 ^ k) == (2 # 1) ^ k.
Proof. intros H. now rewrite Zpower_Qpower. Qed.

Lemma two_nonzero : ~ (2 # 1) == 0.
Proof. discriminate. Qed.

Lemma mul_magnitude (mx my m' : positive) (ex ey k : Z) :
  (0 <= k)%Z ->
  magnitude m' (ex + ey + k) ==
  magnitude mx ex * magnitude my ey * ((Zpos m' * 2 ^ k) # (mx * my)).
Proof.
  intros Hk. unfold magnitude.
  rewrite (Qmake_Qdiv (Zpos m' * 2 ^ k) (mx * my)).
  rewrite inject_Z_mult, (pow2_inject k Hk), Pos2Z.inj_mul, inject_Z_mult.
  rewrite !Qpower_plus by apply two_nonzero.
  field. split; discriminate.
Qed.

Lemma div_magnitude (mx my m' : positive) (ex ey k : Z) :
  (0 <= k)%Z ->
  magnitude m' (ex - ey - 53 + k) ==
  magnitude mx ex / magnitude my ey *
  ((Zpos m' * 2 ^ k * Zpos my) # (mx * 2 ^ 53)).
Proof.
  intros Hk. unfold magnitude.
  rewrite (Qmake_Qdiv (Zpos m' * 2 ^ k * Zpos my) (mx * 2 ^ 53)).
  rewrite !inject_Z_mult, (pow2_inject k Hk), Pos2Z.inj_mul, inject_Z_mult.
  change (inject_Z (Zpos (2 ^ 53))) with ((2 # 1) ^ 53).
  replace (ex - ey - 53 + k)%Z with (ex + (- ey) + (- (53)) + k)%Z by lia.
  rewrite !Qpower_plus by apply two_nonzero.
  rewrite !Qpower_opp.
  field. repeat split; try discriminate; apply Qpower_not_0, two_nonzero.
Qed.

Lemma prim_div_step (x r : float) (s : bool) (m mr : positive) (e er : Z) :
  Prim2SF x = S754_finite s m e -> normal53 m ->
  Prim2SF r = S754_finite false mr er -> normal53 mr ->
  (-1021 <= e - er <= 1022)%Z ->
  exists (m' : positive) (e' : Z) (rho : Q),
    Prim2SF (x / r)%float = S754_finite s m' e' /\ normal53 m' /\
    (e - er - 53 <= e' <= e - er - 51)%Z /\
    (1 - u53 <= rho /\ rho <= 1 + u53) /\
    magnitude m' e' == magnitude m e / magnitude mr er * rho.
Proof.
  intros Hx Hm Hr Hmr He.
  destruct (SFdiv_normal s false m mr e er Hm Hmr) as (m' & k & Hres & Hk & Hn & Herr);
    [lia | lia |].
  exists m', (e - er - 53 + k)%Z, ((Zpos m' * 2 ^ k * Zpos mr) # (m * 2 ^ 53)).
  split.
  - rewrite div_spec, Hx, Hr. unfold SF64div.
    change prec with 53%Z. change emax with 1024%Z.
    rewrite Hres. now rewrite xorb_false_r.
  - split; [exact Hn|]. split; [lia|]. split.
    + apply ratio_bounds. rewrite Pos2Z.inj_mul.
      change (Zpos (2 ^ 53)) with (2 ^ 53)%Z. exact Herr.
    + apply div_magnitude. lia.
Qed.

Lemma prim_mul_step (x r : float) (s : bool) (m mr : positive) (e er : Z) :
  Prim2SF x = S754_finite s m e -> normal53 m ->
  Prim2SF r = S754_finite false mr er -> normal53 mr ->
  (-1126 <= e + er <= 917)%Z ->
  exists (m' : positive) (e' : Z) (rho : Q),
    Prim2SF (x * r)%float = S754_finite s m' e' /\ normal53 m' /\
    (e + er + 52 <= e' <= e + er + 54)%Z /\
    (1 - u53 <= rho /\ rho <= 1 + u53) /\
    magnitude m' e' == magnitude m e * magnitude mr er * rho.
Proof.
  intros Hx Hm Hr Hmr He.
  destruct (SFmul_normal s false m mr e er Hm Hmr) as (m' & k & Hres & Hk & Hn & Herr);
    [lia | lia |].
  exists m', (e + er + k)%Z, ((Zpos m' * 2 ^ k) # (m * mr)).
  split.
  - rewrite mul_spec, Hx, Hr. unfold SF64mul.
    change prec with 53%Z. change emax with 1024%Z.
    rewrite Hres. now rewrite xorb_false_r.
  - split; [exact Hn|]. split; [lia|]. split.
    + apply ratio_bounds. rewrite Pos2Z.inj_mul. exact Herr.
    + apply mul_magnitude. lia.
Qed.

Lemma product_bounds (a b la ha lb hb : Q) :
  0 <= la -> la <= a -> a <= ha -> 0 <= lb -> lb <= b -> b <= hb ->
  la * lb <= a * b /\ a * b <= ha * hb.
Proof. intros. split; nra. Qed.

Lemma four_ratios (r1 r2 r3 r4 : Q) :
  (1 - u53 <= r1 /\ r1 <= 1 + u53) ->
  (1 - u53 <= r2 /\ r2 <= 1 + u53) ->
  (1 - u53 <= r3 /\ r3 <= 1 + u53) ->
  (1 - u53 <= r4 /\ r4 <= 1 + u53) ->
  1 - (1 # 2 ^ 50) <= r1 * r2 * r3 * r4 /\ r1 * r2 * r3 * r4 <= 1 + (1 # 2 ^ 50).
Proof.
  intros [L1 H1] [L2 H2] [L3 H3] [L4 H4].
  assert (P0 : 0 <= 1 - u53) by (vm_compute; discriminate).
  destruct (product_bounds r1 r2 _ _ _ _ P0 L1 H1 P0 L2 H2) as [L12 H12].
  assert (P1 : 0 <= (1 - u53) * (1 - u53)) by (vm_compute; discriminate).
  destruct (product_bounds (r1 * r2) r3 _ _ _ _ P1 L12 H12 P0 L3 H3) as [L123 H123].
  assert (P2 : 0 <= (1 - u53) * (1 - u53) * (1 - u53)) by (vm_compute; discriminate).
  destruct (product_bounds (r1 * r2 * r3) r4 _ _ _ _ P2 L123 H123 P0 L4 H4)
    as [L H].
  split.
  - eapply Qle_trans; [|exact L]. vm_compute. discriminate.
  - eapply Qle_trans; [exact H|]. vm_compute. discriminate.
Qed.

Lemma round_trip_chain (x ra rb : float) (s : bool) (m : positive) (e : Z) :
  Prim2SF x = S754_finite s m e -> normal53 m -> (-1049 <= e <= 944)%Z ->
  rate_float ra -> rate_float rb ->
  exists (m' : positive) (e' : Z),
    Prim2SF (x / ra * rb / rb * ra)%float = S754_finite s m' e' /\
    Qabs (magnitude m' e' - magnitude m e) <= (1 # 2 ^ 50) * magnitude m e.
Proof.
  intros Hx Hm He (ma & ea & Ha & Hma & Hea) (mb & eb & Hb & Hmb & Heb).
  destruct (prim_div_step x ra s m ma e ea Hx Hm Ha Hma)
    as (m1 & e1 & r1 & H1 & Hn1 & He1 & Hr1 & Hv1); [lia|].
  destruct (prim_mul_step _ rb s m1 mb e1 eb H1 Hn1 Hb Hmb)
    as (m2 & e2 & r2 & H2 & Hn2 & He2 & Hr2 & Hv2); [lia|].
  destruct (prim_div_step _ rb s m2 mb e2 eb H2 Hn2 Hb Hmb)
    as (m3 & e3 & r3 & H3 & Hn3 & He3 & Hr3 & Hv3); [lia|].
  destruct (prim_mul_step _ ra s m3 ma e3 ea H3 Hn3 Ha Hma)
    as (m4 & e4 & r4 & H4 & Hn4 & He4 & Hr4 & Hv4); [lia|].
  exists m4, e4. split; [exact H4|].
  pose proof (magnitude_pos m e) as P0.
  pose proof (magnitude_pos ma ea) as Pa.
  pose proof (magnitude_pos mb eb) as Pb.
  assert (Hv : magnitude m4 e4 == magnitude m e * (r1 * r2 * r3 * r4)).
  { rewrite Hv4, Hv3, Hv2, Hv1. field. split; intros H0.
    - rewrite H0 in Pa. now apply Qlt_irrefl in Pa.
    - rewrite H0 in Pb. now apply Qlt_irrefl in Pb. }
  destruct (four_ratios r1 r2 r3 r4 Hr1 Hr2 Hr3 Hr4) as [L H].
  rewrite Hv. apply Qabs_Qle_condition.
  set (p := r1 * r2 * r3 * r4) in *. set (M := magnitude m e) in *.
  split; nra.
Qed.

Lemma in_range_normal (x : float) :
  (1e-300 <=? abs x)%float = true -> (abs x <=? 1e300)%float = true ->
  exists (s : bool) (m : positive) (e : Z),
    Prim2SF x = S754_finite s m e /\ normal53 m /\ (-1049 <= e <= 944)%Z.
Proof.
  intros H1 H2. rewrite leb_spec, abs_spec in H1, H2.
  change (Prim2SF 1e-300) with (S754_finite false 6032057205060441 (-1049)) in H1.
  change (Prim2SF 1e300) with (S754_finite false 6724873095247260 944) in H2.
  pose proof (Prim2SF_valid x) as Hv.
  destruct (Prim2SF x) as [s|s| |s m e]; try discriminate.
  exists s, m, e. split; [reflexivity|].
  assert (Hlo : (-1049 <= e)%Z).
  { revert H1. unfold SFleb, SFcompare, SFabs.
    destruct (Z.compare_spec (-1049) e); intros; try lia; discriminate. }
  assert (Hhi : (e <= 944)%Z).
  { revert H2. unfold SFleb, SFcompare, SFabs.
    destruct (Z.compare_spec e 944); intros; try lia; discriminate. }
  split; [|lia].
  unfold valid_binary, bounded, canonical_mantissa in Hv.
  apply andb_prop in Hv. destruct Hv as [Hc _].
  apply Z.eqb_eq in Hc. unfold fexp, emin in Hc.
  change prec with 53%Z in Hc. change emax with 1024%Z in Hc.
  unfold normal53. lia.
Qed.

Lemma rates_are_rate_floats :
  Forall rate_float (1.0 :: 0.92 :: 0.81 :: 140.0 :: 1.5 :: nil)%float.
Proof.
  repeat constructor;
    (eexists; eexists; split; [vm_compute; reflexivity|];
     split; [reflexivity | lia]).
Qed.

End Magnitudes.

(** ** The round trip of a conversion *)

Section RoundTrip.
Import SpecFloat Binary64 Currency.
Local Open Scope Q_scope.

Lemma supported_rate_float (c : string) :
  supported c ->
  exists r : float, Dict.get SUPPORTED_CURRENCIES c = Some r /\ rate_float r.
Proof.
  pose proof rates_are_rate_floats as H.
  repeat match goal with
         | H : Forall _ (_ :: _) |- _ => inversion_clear H
         end.
  unfold supported. simpl.
  intros [<-|[<-|[<-|[<-|[<-|[]]]]]]; eexists; (split; [reflexivity|assumption]).
Qed.

Lemma round_trip_supported (x : float) (a b : string) (ra rb : float) :
  Dict.get SUPPORTED_CURRENCIES a = Some ra ->
  Dict.get SUPPORTED_CURRENCIES b = Some rb ->
  round_trip x a b =
  Ok (if String.eqb a b then x else (x / ra * rb / rb * ra)%float).
Proof.
  intros Ha Hb. unfold round_trip.
  rewrite (convert_supported x a b ra rb Ha Hb). simpl.
  rewrite (convert_supported _ b a rb ra Hb Ha).
  rewrite (String.eqb_sym b a). destruct (String.eqb a b); reflexivity.
Qed.

Lemma near_self (tol : Q) (x : float) :
  0 <= tol -> is_finite x = true -> near tol x x.
Proof.
  intros Htol Hfin. split; [exact Hfin|].
  setoid_replace (float_value x - float_value x) with 0 by ring.
  apply Qmult_le_0_compat; [exact Htol | apply Qabs_nonneg].
Qed.

Lemma near_of_magnitudes (tol : Q) (x z : float) (s : bool) (m m' : positive)
  (e e' : Z) :
  Prim2SF x = S754_finite s m e ->
  Prim2SF z = S754_finite s m' e' ->
  Qabs (magnitude m' e' - magnitude m e) <= tol * magnitude m e ->
  near tol x z.
Proof.
  intros Hx Hz H. unfold near, is_finite, float_value. rewrite Hx, Hz.
  split; [reflexivity|]. pose proof (magnitude_pos m e) as Hpos.
  destruct s; cbv [SF2Q].
  - setoid_replace (- magnitude m' e' - - magnitude m e)
      with (- (magnitude m' e' - magnitude m e)) by ring.
    rewrite !Qabs_opp, (Qabs_pos (magnitude m e)) by (apply Qlt_le_weak, Hpos).
    exact H.
  - rewrite (Qabs_pos (magnitude m e)) by (apply Qlt_le_weak, Hpos). exact H.
Qed.

Lemma round_trip_zero (x : float) (a b : string) :
  supported a -> supported b -> x = 0%float \/ x = (-0)%float ->
  round_trip x a b = Ok x.
Proof.
  unfold supported. simpl.
  intros [<-|[<-|[<-|[<-|[<-|[]]]]]] [<-|[<-|[<-|[<-|[<-|[]]]]]] [->| ->];
    vm_compute; reflexivity.
Qed.

(** C6, as the code has it. For supported codes [a] and [b] and an amount
    [x] with [1e-300 <= |x| <= 1e300], converting [x] from [a] to [b] and
    the result back from [b] to [a] returns a finite amount [z] with
    [|z - x| <= |x| / 2^50], the numbers being the rationals that the floats
    denote; when [a = b], and when [x] is a zero, the round trip returns [x]
    itself. *)
Theorem convert_round_trip_within_tolerance (x : float) (a b : string) :
  supported a -> supported b ->
  ((1e-300 <=? abs x)%float = true -> (abs x <=? 1e300)%float = true ->
   exists z : float, round_trip x a b = Ok z /\ near (1 # 2 ^ 50) x z) /\
  (a = b -> round_trip x a b = Ok x) /\
  (x = 0%float \/ x = (-0)%float -> round_trip x a b = Ok x).
Proof.
  intros Ha Hb.
  destruct (supported_rate_float a Ha) as (ra & Hra & Hfa).
  destruct (supported_rate_float b Hb) as (rb & Hrb & Hfb).
  pose proof (round_trip_supported x a b ra rb Hra Hrb) as Hrt.
  split; [|split].
  - intros Hlo Hhi.
    destruct (in_range_normal x Hlo Hhi) as (s & m & e & Hx & Hm & He).
    rewrite Hrt. destruct (String.eqb a b).
    + exists x. split; [reflexivity|].
      apply near_self; [discriminate|]. unfold is_finite. now rewrite Hx.
    + destruct (round_trip_chain x ra rb s m e Hx Hm He Hfa Hfb)
        as (m' & e' & Hz & Herr).
      eexists. split; [reflexivity|].
      exact (near_of_magnitudes _ _ _ s m m' e e' Hx Hz Herr).
  - intros ->. rewrite Hrt. now rewrite String.eqb_refl.
  - now apply round_trip_zero.
Qed.

Lemma convert_round_trip_within_tolerance_witness :
  supported "GBP" /\ supported "JPY" /\
  (1e-300 <=? abs 50)%float = true /\ (abs 50 <=? 1e300)%float = true /\
  exists z : float, round_trip 50%float "GBP" "JPY" = Ok z /\
                    near (1 # 2 ^ 50) 50%float z.
Proof.
  assert (Hg : supported "GBP") by in_table.
  assert (Hj : supported "JPY") by in_table.
  split; [exact Hg|]. split; [exact Hj|].
  split; [reflexivity|]. split; [reflexivity|].
  apply (proj1 (convert_round_trip_within_tolerance 50%float "GBP" "JPY" Hg Hj));
    reflexivity.
Defined.

(** An amount near the top of the binary64 range overflows on the way:
    1e308 dollars are infinitely many yen, and the infinity stays on the way
    back. No tolerance covers that. *)
Lemma convert_round_trip_overflows :
  supported "USD" /\ supported "JPY" /\
  is_finite 1e308%float = true /\
  round_trip 1e308%float "USD" "JPY" = Ok infinity /\
  forall tol : Q, ~ near tol 1e308%float infinity.
Proof.
  split; [in_table|].
  split; [in_table|].
  split; [vm_compute; reflexivity|].
  split; [vm_compute; reflexivity|].
  intros tol [Hfin _]. vm_compute in Hfin. discriminate.
Qed.

End RoundTrip.

(** * Further properties of the code *)

(** ** currency.py *)

Section ConversionOutcomes.
Import Currency Rates Binary64.

(** X1. [convert] has three outcomes and no other: a number when both codes
    are in the table; [CurrencyNotSupportedError] for the source code when
    that one is outside the table, whatever the target; and
    [CurrencyNotSupportedError] for the target code when only the target is
    outside. It never raises [KeyError] on the table. *)
Theorem convert_outcomes (x : float) (a b : string) :
  (supported a /\ supported b /\ exists y, convert x a b = Ok y) \/
  (~ supported a /\ convert x a b = Raise (CurrencyNotSupportedError a)) \/
  (supported a /\ ~ supported b /\
   convert x a b = Raise (CurrencyNotSupportedError b)).
Proof.
  destruct (supported_dec a) as [Ha|Ha].
  - destruct (supported_dec b) as [Hb|Hb].
    + left. split; [exact Ha|]. split; [exact Hb|].
      now apply convert_supported_ok.
    + right. right. split; [exact Ha|]. split; [exact Hb|].
      now apply convert_unsupported_to.
  - right. left. split; [exact Ha|]. now apply convert_unsupported_from.
Qed.

Lemma table_rate_positive (c : string) (r : float) :
  Dict.get SUPPORTED_CURRENCIES c = Some r ->
  is_finite r = true /\ (0 <? r)%float = true.
Proof.
  unfold SUPPORTED_CURRENCIES. simpl.
  repeat match goal with
         | |- context [String.eqb c ?k] => destruct (String.eqb c k)
         end;
    intros [= <-] || discriminate; split; vm_compute; reflexivity.
Qed.

(** X2. [get_rate] succeeds exactly on the codes of the table and returns
    the code with the rate that [list_supported_currencies] lists for it;
    every such rate is a finite number above zero, so a conversion never
    divides by zero. For any other code [get_rate] raises
    [CurrencyNotSupportedError]. *)
Theorem get_rate_of_table (c : string) :
  (supported c ->
   exists r : float,
     get_rate c = Ok {| currency := c; rate := r |} /\
     Dict.get list_supported_currencies c = Some r /\
     is_finite r = true /\ (0 <? r)%float = true) /\
  (~ supported c -> get_rate c = Raise (CurrencyNotSupportedError c)).
Proof.
  split.
  - intros Hc. destruct (supported_rate c Hc) as [r Hr]. exists r.
    unfold get_rate. rewrite (validate_supported c Hc).
    unfold Dict.getitem. rewrite Hr. simpl.
    split; [reflexivity|]. split; [exact Hr|].
    now apply (table_rate_positive c).
  - intros Hc. unfold get_rate. now rewrite (validate_unsupported c Hc).
Qed.

End ConversionOutcomes.

Section ConversionAccuracy.
Import SpecFloat Binary64 Currency Facts.
Local Open Scope Q_scope.

Lemma two_ratios (r1 r2 : Q) :
  (1 - u53 <= r1 /\ r1 <= 1 + u53) ->
  (1 - u53 <= r2 /\ r2 <= 1 + u53) ->
  1 - (1 # 2 ^ 51) <= r1 * r2 /\ r1 * r2 <= 1 + (1 # 2 ^ 51).
Proof.
  intros [L1 H1] [L2 H2].
  assert (P0 : 0 <= 1 - u53) by (vm_compute; discriminate).
  destruct (product_bounds r1 r2 _ _ _ _ P0 L1 H1 P0 L2 H2) as [L H].
  split.
  - eapply Qle_trans; [|exact L]. vm_compute. discriminate.
  - eapply Qle_trans; [exact H|]. vm_compute. discriminate.
Qed.

Lemma table_rate_float (c : string) (r : float) :
  Dict.get SUPPORTED_CURRENCIES c = Some r -> rate_float r.
Proof.
  intros Hr.
  assert (Hc : supported c).
  { apply contains_supported, dict_contains_get. eauto. }
  destruct (supported_rate_float c Hc) as (r' & Hr' & Hf). congruence.
Qed.

Lemma float_value_finite (x : float) (s : bool) (m : positive) (e : Z) :
  Prim2SF x = S754_finite s m e ->
  float_value x = if s then - magnitude m e else magnitude m e.
Proof. intros H. unfold float_value. now rewrite H. Qed.

(** X3. For two codes of the table with rates [ra] and [rb] and an amount
    [x] with [1e-300 <= |x| <= 1e300], [convert] returns a finite number [y]
    that is the exact quotient [x * rb / ra] up to a relative error of
    [2^-51]: two roundings, no overflow and no underflow. *)
Theorem convert_within_two_roundings (x : float) (a b : string) (ra rb : float) :
  Dict.get SUPPORTED_CURRENCIES a = Some ra ->
  Dict.get SUPPORTED_CURRENCIES b = Some rb ->
  (1e-300 <=? abs x)%float = true -> (abs x <=? 1e300)%float = true ->
  exists y : float,
    convert x a b = Ok y /\ is_finite y = true /\
    Qabs (float_value y - exact_conversion x ra rb)
    <= (1 # 2 ^ 51) * Qabs (exact_conversion x ra rb).
Proof.
  intros Hra Hrb Hlo Hhi.
  destruct (in_range_normal x Hlo Hhi) as (s & m & e & Hx & Hm & He).
  destruct (table_rate_float a ra Hra) as (ma & ea & Ha & Hma & Hea).
  destruct (table_rate_float b rb Hrb) as (mb & eb & Hb & Hmb & Heb).
  pose proof (magnitude_pos m e) as P0.
  pose proof (magnitude_pos ma ea) as Pa.
  pose proof (magnitude_pos mb eb) as Pb.
  assert (Na : ~ magnitude ma ea == 0)
    by (intros H0; rewrite H0 in Pa; now apply Qlt_irrefl in Pa).
  unfold exact_conversion.
  rewrite (float_value_finite x s m e Hx), (float_value_finite ra false ma ea Ha),
    (float_value_finite rb false mb eb Hb).
  rewrite (convert_supported x a b ra rb Hra Hrb).
  destruct (String.eqb_spec a b) as [Hab|Hab].
  - (* the same code: no arithmetic at all *)
    assert (ra = rb) by congruence. subst rb.
    assert (Hsame : S754_finite false mb eb = S754_finite false ma ea) by congruence.
    injection Hsame as -> ->.
    exists x. split; [reflexivity|]. split; [unfold is_finite; now rewrite Hx|].
    rewrite (float_value_finite x s m e Hx).
    set (X := if s then - magnitude m e else magnitude m e).
    setoid_replace (X - X / magnitude ma ea * magnitude ma ea) with 0
      by (field; exact Na).
    apply Qmult_le_0_compat; [discriminate | apply Qabs_nonneg].
  - destruct (prim_div_step x ra s m ma e ea Hx Hm Ha Hma)
      as (m1 & e1 & r1 & H1 & Hn1 & He1 & Hr1 & Hv1); [lia|].
    destruct (prim_mul_step _ rb s m1 mb e1 eb H1 Hn1 Hb Hmb)
      as (m2 & e2 & r2 & H2 & Hn2 & He2 & Hr2 & Hv2); [lia|].
    eexists. split; [reflexivity|].
    split; [unfold is_finite; now rewrite H2|].
    rewrite (float_value_finite _ s m2 e2 H2).
    destruct (two_ratios r1 r2 Hr1 Hr2) as [L H].
    set (E := magnitude m e / magnitude ma ea * magnitude mb eb).
    assert (PE : 0 < E).
    { unfold E. apply Qmult_lt_0_compat; [|exact Pb].
      apply Qlt_shift_div_l; [exact Pa|]. now rewrite Qmult_0_l. }
    assert (Hv : magnitude m2 e2 == E * (r1 * r2)).
    { rewrite Hv2, Hv1. unfold E. field. exact Na. }
    assert (Herr : Qabs (magnitude m2 e2 - E) <= (1 # 2 ^ 51) * E).
    { rewrite Hv. apply Qabs_Qle_condition.
      set (p := r1 * r2) in *. split; nra. }
    destruct s.
    + setoid_replace (- magnitude m2 e2 - - magnitude m e / magnitude ma ea * magnitude mb eb)
        with (- (magnitude m2 e2 - E)) by (unfold E; field; exact Na).
      setoid_replace (- magnitude m e / magnitude ma ea * magnitude mb eb)
        with (- E) by (unfold E; field; exact Na).
      rewrite !Qabs_opp, (Qabs_pos E) by (apply Qlt_le_weak, PE). exact Herr.
    + fold E. rewrite (Qabs_pos E) by (apply Qlt_le_weak, PE). exact Herr.
Qed.

Lemma convert_within_two_roundings_witness :
  Dict.get SUPPORTED_CURRENCIES "USD" = Some 1.0%float /\
  Dict.get SUPPORTED_CURRENCIES "EUR" = Some 0.92%float /\
  (1e-300 <=? abs 100)%float = true /\ (abs 100 <=? 1e300)%float = true /\
  exists y : float,
    convert 100%float "USD" "EUR" = Ok y /\ is_finite y = true /\
    Qabs (float_value y - exact_conversion 100%float 1.0%float 0.92%float)
    <= (1 # 2 ^ 51) * Qabs (exact_conversion 100%float 1.0%float 0.92%float).
Proof.
  split; [reflexivity|]. split; [reflexivity|].
  split; [reflexivity|]. split; [reflexivity|].
  apply (convert_within_two_roundings 100%float "USD" "EUR" 1.0%float 0.92%float);
    reflexivity.
Defined.

End ConversionAccuracy.

Section ConversionSign.
Import SpecFloat Binary64 Currency.

Lemma binary_round_aux_opp (s : bool) (m e : Z) (l : location) :
  binary_round_aux 53 1024 (negb s) m e l
  = SFopp (binary_round_aux 53 1024 s m e l).
Proof.
  unfold binary_round_aux.
  destruct (shr_fexp 53 1024 m e l) as [mrs1 e1].
  destruct (shr_fexp 53 1024 _ e1 loc_Exact) as [mrs2 e2].
  destruct (shr_m mrs2); [reflexivity | | reflexivity].
  destruct (e2 <=? 1024 - 53)%Z; reflexivity.
Qed.

Lemma SFdiv_opp (X : spec_float) (mr : positive) (er : Z) :
  SFdiv 53 1024 (SFopp X) (S754_finite false mr er)
  = SFopp (SFdiv 53 1024 X (S754_finite false mr er)).
Proof.
  destruct X as [s|s| |s m e];
    [destruct s; reflexivity | destruct s; reflexivity | reflexivity |].
  simpl SFopp at 1. unfold SFdiv.
  destruct (SFdiv_core_binary 53 1024 (Zpos m) e (Zpos mr) er) as [[mz ez] lz].
  rewrite !xorb_false_r. apply binary_round_aux_opp.
Qed.

Lemma SFmul_opp (X : spec_float) (mr : positive) (er : Z) :
  SFmul 53 1024 (SFopp X) (S754_finite false mr er)
  = SFopp (SFmul 53 1024 X (S754_finite false mr er)).
Proof.
  destruct X as [s|s| |s m e];
    [destruct s; reflexivity | destruct s; reflexivity | reflexivity |].
  simpl SFopp at 1. unfold SFmul.
  rewrite !xorb_false_r. apply binary_round_aux_opp.
Qed.

Lemma div_opp_rate (x r : float) :
  rate_float r -> (- x / r)%float = (- (x / r))%float.
Proof.
  intros (mr & er & Hr & _). apply Prim2SF_inj.
  rewrite opp_spec, !div_spec, opp_spec, Hr. apply SFdiv_opp.
Qed.

Lemma mul_opp_rate (x r : float) :
  rate_float r -> (- x * r)%float = (- (x * r))%float.
Proof.
  intros (mr & er & Hr & _). apply Prim2SF_inj.
  rewrite opp_spec, !mul_spec, opp_spec, Hr. apply SFmul_opp.
Qed.

(** X4. Conversion commutes with the change of sign: for two codes of the
    table and every float [x] (a negative amount, a zero, an infinity and
    NaN included), [convert(-x, a, b)] is the negation of
    [convert(x, a, b)]. A refund converts to what the payment converts to,
    negated, bit for bit. *)
Theorem convert_opp (x : float) (a b : string) :
  supported a -> supported b ->
  exists y : float,
    convert x a b = Ok y /\ convert (- x)%float a b = Ok (- y)%float.
Proof.
  intros Ha Hb.
  destruct (supported_rate_float a Ha) as (ra & Hra & Hfa).
  destruct (supported_rate_float b Hb) as (rb & Hrb & Hfb).
  rewrite !(convert_supported _ a b ra rb Hra Hrb).
  destruct (String.eqb a b).
  - exists x. split; reflexivity.
  - eexists. split; [reflexivity|].
    now rewrite (div_opp_rate x ra Hfa), (mul_opp_rate _ rb Hfb).
Qed.

Lemma convert_opp_witness :
  supported "EUR" /\ supported "JPY" /\
  exists y : float,
    convert 200%float "EUR" "JPY" = Ok y /\
    convert (- 200)%float "EUR" "JPY" = Ok (- y)%float.
Proof.
  assert (He : supported "EUR") by in_table.
  assert (Hj : supported "JPY") by in_table.
  split; [exact He|]. split; [exact Hj|].
  exact (convert_opp 200%float "EUR" "JPY" He Hj).
Defined.

End ConversionSign.

(** ** models.py *)

Section ExpenseSequences.
Import Models.

(** X5. Recording a sequence of expenses on a wallet, one [add_expense] after
    the other, leaves the name and the currency alone, appends the records
    to the wallet's expenses in the order they were recorded, and takes the
    amounts off the balance one by one in that order; [total_spent] grows by
    the same amounts, added in that order. *)
Theorem add_expense_sequence (w : Wallet) (es : list Expense) :
  let w' := fold_left add_expense es w in
  name w' = name w /\
  currency w' = currency w /\
  expenses w' = expenses w ++ es /\
  balance w' = fold_left (fun b e => (b - amount e)%float) es (balance w) /\
  total_spent w' = fold_left (fun t e => (t + amount e)%float) es (total_spent w).
Proof.
  revert w. induction es as [|e es IH]; intros w; simpl.
  - rewrite app_nil_r. repeat split.
  - destruct (IH (add_expense w e)) as (H1 & H2 & H3 & H4 & H5).
    rewrite H1, H2, H3, H4, H5, total_spent_add_expense. simpl.
    rewrite <- app_assoc. repeat split.
Qed.

End ExpenseSequences.

(** ** manager.py: the registry *)

Section RegistryFacts.
Import Models Manager Api.
Variable lower : string -> string.

Lemma well_keyed_keys (registry : list (string * Wallet)) :
  well_keyed lower registry ->
  map (fun w => lower (name w)) (Dict.values registry) = Dict.keys registry.
Proof.
  intros [Hk _]. unfold Dict.values, Dict.keys. rewrite map_map.
  apply map_ext_in. intros [k w] Hin. rewrite Forall_forall in Hk.
  symmetry. exact (Hk _ Hin).
Qed.

(** X6. In every manager state, [list_wallets()] has no two wallets whose
    names are equal up to case, and every wallet it lists is the one that
    [get_wallet] returns for its name. *)
Theorem list_wallets_distinct (self : ExpenseManager) :
  reachable lower self ->
  exists ws : list Wallet,
    list_wallets self = (Ok ws, self) /\
    NoDup (map (fun w => lower (name w)) ws) /\
    forall w, In w ws -> get_wallet lower (name w) self = (Ok w, self).
Proof.
  intros Hreach. pose proof (reachable_well_keyed lower self Hreach) as Hwk.
  exists (Dict.values (wallets self)). split; [reflexivity|]. split.
  - rewrite (well_keyed_keys _ Hwk). exact (proj2 Hwk).
  - intros w Hin. rewrite get_wallet_run.
    destruct Hwk as [Hk Hnd]. rewrite Forall_forall in Hk.
    unfold Dict.values in Hin. apply in_map_iff in Hin.
    destruct Hin as ([k w'] & Heq & Hin). simpl in Heq. subst w'.
    pose proof (Hk _ Hin) as Hkw. simpl in Hkw.
    now rewrite <- Hkw, (dict_in_get _ _ _ Hnd Hin).
Qed.

(** X7. After a successful [create_wallet(name, ...)], [get_wallet] returns
    the new wallet for every spelling of the name that lower-cases to the
    same key, and answers for every other name as it did before the
    creation. *)
Theorem get_wallet_after_create (self self' : ExpenseManager)
  (name currency : string) (balance : float) (wallet : Wallet) :
  create_wallet lower name currency balance self = (Ok wallet, self') ->
  (forall other : string, lower other = lower name ->
     get_wallet lower other self' = (Ok wallet, self')) /\
  (forall other : string, lower other <> lower name ->
     fst (get_wallet lower other self') = fst (get_wallet lower other self)).
Proof.
  rewrite create_wallet_run.
  destruct (Dict.get (wallets self) (lower name)) as [w|] eqn:E; [discriminate|].
  destruct (Currency.validate_currency currency); [|discriminate].
  intros [= <- <-]. rewrite <- (dict_set_fresh _ _ _ E). split.
  - intros other Hother. rewrite get_wallet_run. simpl.
    now rewrite Hother, dict_get_set_same.
  - intros other Hother. rewrite !get_wallet_run. simpl.
    now rewrite dict_get_set_other.
Qed.

End RegistryFacts.

Lemma list_wallets_distinct_witness :
  Api.reachable Api.str_lower SampleData.create_sample_manager /\
  exists ws : list Models.Wallet,
    Manager.list_wallets SampleData.create_sample_manager
    = (Ok ws, SampleData.create_sample_manager) /\
    NoDup (map (fun w => Api.str_lower (Models.name w)) ws) /\
    forall w, In w ws ->
      Manager.get_wallet Api.str_lower (Models.name w)
        SampleData.create_sample_manager
      = (Ok w, SampleData.create_sample_manager).
Proof.
  split; [exact sample_manager_reachable|].
  exact (list_wallets_distinct Api.str_lower SampleData.create_sample_manager
           sample_manager_reachable).
Defined.

Lemma get_wallet_after_create_witness :
  let wallet := {| Models.name := "Travel"; Models.currency := "EUR";
                   Models.balance := 500%float; Models.expenses := [] |} in
  let self' := {| Manager.wallets := [("travel", wallet)] |} in
  Manager.create_wallet Api.str_lower "Travel" "EUR" 500%float
    {| Manager.wallets := [] |} = (Ok wallet, self') /\
  Manager.get_wallet Api.str_lower "TRAVEL" self' = (Ok wallet, self').
Proof.
  intros wallet self'.
  assert (H : Manager.create_wallet Api.str_lower "Travel" "EUR" 500%float
                {| Manager.wallets := [] |} = (Ok wallet, self'))
    by reflexivity.
  split; [exact H|].
  apply (proj1 (get_wallet_after_create Api.str_lower _ _ _ _ _ _ H)).
  reflexivity.
Defined.

(** ** manager.py: the constructor *)

Section ConstructorEdges.
Import Models Manager Api.
Variable lower : string -> string.

(** X8. A snapshot without wallets gives an empty manager: [None], any
    other false datum (an empty mapping, for one), a mapping that has no
    ["wallets"] key, and a mapping whose ["wallets"] is the empty list. No
    error is raised for the missing key. *)
Theorem init_without_wallets (data : json) :
  Json.truthy data = false \/
  (exists items, data = JDict items /\
                 (Dict.get items "wallets" = None \/
                  Dict.get items "wallets" = Some (JList []))) ->
  __init__ lower data = Ok {| wallets := [] |}.
Proof.
  intros [H|(items & -> & H)].
  - unfold __init__. rewrite H. reflexivity.
  - unfold __init__. destruct (Json.truthy (JDict items)); [|reflexivity].
    unfold Json.get. destruct H as [-> | ->]; reflexivity.
Qed.

(** X9. The constructor fills in what an entry leaves out: a wallet entry
    with a name and a currency but no ["balance"] and no ["expenses"]
    becomes a wallet with balance 0.0 and no expenses, and an expense entry
    with a description and an amount but no ["category"] gets the category
    ["uncategorized"]. *)
Theorem init_fills_defaults :
  (forall (fields : list (string * json)) (n c : string),
     Dict.get fields "name" = Some (JStr n) ->
     Dict.get fields "currency" = Some (JStr c) ->
     Dict.get fields "balance" = None ->
     Dict.get fields "expenses" = None ->
     __init__ lower (JDict [("wallets", JList [JDict fields])])
     = Ok {| wallets :=
               [(lower n, {| name := n; currency := c; balance := 0.0%float;
                             expenses := [] |})] |}) /\
  (forall (fields : list (string * json)) (d : string) (x : float),
     Dict.get fields "description" = Some (JStr d) ->
     Dict.get fields "amount" = Some (JNum x) ->
     Dict.get fields "category" = None ->
     parse_expense (JDict fields)
     = Ok {| description := d; amount := x; category := "uncategorized" |}).
Proof.
  split.
  - intros fields n c Hn Hc Hb He.
    unfold __init__. simpl.
    unfold parse_wallet, Json.getitem, Json.get, Dict.getitem.
    rewrite Hn, Hc, Hb, He. reflexivity.
  - intros fields d x Hd Hx Hc.
    unfold parse_expense, Json.getitem, Json.get, Dict.getitem.
    rewrite Hd, Hx, Hc. reflexivity.
Qed.

Lemma load_wallets_app (before rest : list json) (ws : list Wallet)
  (registry : list (string * Wallet)) :
  Forall2 (fun d w => parse_wallet d = Ok w) before ws ->
  load_wallets lower (before ++ rest) registry
  = load_wallets lower rest (register_all lower ws registry).
Proof.
  intros H. revert registry.
  induction H as [|d w before ws Hd _ IH]; intros registry; simpl.
  - reflexivity.
  - rewrite Hd. simpl. apply IH.
Qed.

Lemma parse_all (items : list json) :
  Forall (fun d => exists w, parse_wallet d = Ok w) items ->
  exists ws, Forall2 (fun d w => parse_wallet d = Ok w) items ws.
Proof.
  induction 1 as [|d items [w Hw] _ [ws IH]].
  - exists []. constructor.
  - exists (w :: ws). now constructor.
Qed.

(** X10. The constructor raises the error of the first entry that it cannot
    read and builds no manager: when the entries before it are readable, an
    entry without ["name"] raises [KeyError] for ["name"], and an entry with
    a name but without ["currency"] raises [KeyError] for ["currency"],
    whatever follows in the snapshot. *)
Theorem init_missing_key (before after : list json) (fields : list (string * json))
  (key : string) :
  Forall (fun d => exists w, parse_wallet d = Ok w) before ->
  (key = "name" /\ Dict.get fields "name" = None) \/
  (key = "currency" /\ (exists n, Dict.get fields "name" = Some (JStr n)) /\
   Dict.get fields "currency" = None) ->
  __init__ lower (JDict [("wallets", JList (before ++ JDict fields :: after))])
  = Raise (KeyError key).
Proof.
  intros Hbefore Hkey. destruct (parse_all before Hbefore) as [ws Hws].
  unfold __init__. simpl.
  rewrite (load_wallets_app before _ ws [] Hws). simpl.
  assert (Hbad : parse_wallet (JDict fields) = Raise (KeyError key)).
  { unfold parse_wallet, Json.getitem, Dict.getitem.
    destruct Hkey as [[-> Hn]|(-> & [n Hn] & Hc)].
    - now rewrite Hn.
    - rewrite Hn. simpl. now rewrite Hc. }
  now rewrite Hbad.
Qed.

End ConstructorEdges.

Lemma init_without_wallets_witness :
  Json.truthy JNull = false /\
  Manager.__init__ Api.str_lower JNull = Ok {| Manager.wallets := [] |}.
Proof.
  split; [reflexivity|].
  apply (init_without_wallets Api.str_lower JNull). left. reflexivity.
Defined.

Lemma init_missing_key_witness :
  let good := JDict [("name", JStr "Cash"); ("currency", JStr "USD")] in
  let bad := JDict [("name", JStr "Travel"); ("balance", JNum 5%float)] in
  Manager.parse_wallet good
  = Ok {| Models.name := "Cash"; Models.currency := "USD";
          Models.balance := 0%float; Models.expenses := [] |} /\
  Manager.__init__ Api.str_lower (JDict [("wallets", JList [good; bad; good])])
  = Raise (KeyError "currency").
Proof.
  intros good bad. split; [reflexivity|].
  apply (init_missing_key Api.str_lower [good] [good]
           [("name", JStr "Travel"); ("balance", JNum 5%float)] "currency").
  - repeat constructor. eexists. reflexivity.
  - right. split; [reflexivity|]. split; [eexists; reflexivity | reflexivity].
Defined.

(** ** manager.py: the reports *)

Section ReportFacts.
Import Models Manager Api Facts.
Variable lower : string -> string.

Lemma report_expenses_ok (c target : string) (es : list Expense) :
  Currency.supported c -> Currency.supported target ->
  exists lines : list ExpenseLine.t,
    report_expenses c target es = Ok lines /\
    Forall2 (reports c target) es lines.
Proof.
  intros Hc Ht. induction es as [|e es (lines & Hlines & Hall)]; simpl.
  - exists []. split; [reflexivity | constructor].
  - destruct (convert_supported_ok (amount e) c target Hc Ht) as [y Hy].
    rewrite Hy, Hlines. simpl. eexists. split; [reflexivity|].
    constructor; [|exact Hall]. repeat split; assumption.
Qed.

(** X11. For a wallet that [get_wallet] finds and a target currency given
    explicitly: when the target and the wallet's currency are both in the
    table, [wallet_report] returns the wallet's name, currency and balance,
    the balance converted into the target, one line per expense in recorded
    order with the expense's fields and its own converted amount, and the
    target; when the target is outside the table it raises
    [CurrencyNotSupportedError] for the target. The manager is unchanged. *)
Theorem wallet_report_in_target (self : ExpenseManager)
  (wallet_name target : string) (w : Wallet) :
  fst (get_wallet lower wallet_name self) = Ok w ->
  target <> "" ->
  (Currency.supported target -> Currency.supported (currency w) ->
   exists report : WalletReport.t,
     wallet_report lower wallet_name (Some target) self = (Ok report, self) /\
     WalletReport.wallet report = name w /\
     WalletReport.wallet_currency report = currency w /\
     WalletReport.balance report = balance w /\
     Currency.convert (balance w) (currency w) target
       = Ok (WalletReport.balance_in_target report) /\
     Forall2 (reports (currency w) target) (expenses w)
       (WalletReport.expenses report) /\
     WalletReport.target_currency report = target) /\
  (~ Currency.supported target ->
   wallet_report lower wallet_name (Some target) self
   = (Raise (CurrencyNotSupportedError target), self)).
Proof.
  rewrite get_wallet_run. simpl. intros Hget Hne.
  rewrite wallet_report_run.
  destruct (Dict.get (wallets self) (lower wallet_name)) as [w0|]; [|discriminate].
  injection Hget as ->. unfold target_or.
  apply String.eqb_neq in Hne. rewrite Hne. split.
  - intros Ht Hc. rewrite (validate_supported _ Ht). simpl.
    destruct (convert_supported_ok (balance w) _ _ Hc Ht) as [yb Hyb].
    destruct (report_expenses_ok (currency w) target (expenses w) Hc Ht)
      as (lines & Hlines & Hall).
    rewrite Hyb, Hlines. simpl. eexists. split; [reflexivity|]. simpl.
    repeat split; assumption.
  - intros Ht. now rewrite (validate_unsupported _ Ht).
Qed.

Lemma dashboard_loop_same_currency (target : string) (ws : list Wallet) :
  Currency.supported target ->
  Forall (fun w => currency w = target) ws ->
  forall (tb ts : float) (acc : list WalletSummary.t),
  exists sums : list WalletSummary.t,
    dashboard_loop target ws tb ts acc =
    Ok (fold_left PrimFloat.add (map balance ws) tb,
        fold_left PrimFloat.add (map total_spent ws) ts,
        acc ++ sums) /\
    Forall2 (fun w s => WalletSummary.balance_in_target s = balance w /\
                        WalletSummary.total_spent_in_target s = total_spent w)
      ws sums.
Proof.
  intros Ht Hws. induction Hws as [|w ws Hw _ IH]; intros tb ts acc.
  - exists []. simpl. rewrite app_nil_r. split; [reflexivity | constructor].
  - simpl. rewrite Hw, !(convert_same _ _ Ht). simpl.
    match goal with
    | |- context [dashboard_loop target ws ?tb' ?ts' (acc ++ [?s])] =>
        destruct (IH tb' ts' (acc ++ [s])) as (sums & Hloop & Hall);
        exists (s :: sums)
    end.
    rewrite Hloop, <- app_assoc. split; [reflexivity|].
    constructor; [split; reflexivity | exact Hall].
Qed.

(** X12. When every wallet is in the target currency, the dashboard adds the
    wallets' own figures and nothing is converted: [total_balance] is the
    sum of the balances, [total_spent] the sum of the wallets'
    [total_spent()], both taken in [list_wallets()] order from 0.0, and every
    line shows its balance and spending unchanged. *)
Theorem dashboard_in_common_currency (self : ExpenseManager) (target : string) :
  Currency.supported target ->
  Forall (fun w => currency w = target) (Dict.values (wallets self)) ->
  exists report : Dashboard.t,
    consolidated_dashboard target self = (Ok report, self) /\
    Dashboard.total_balance report
    = Models.sum (map balance (Dict.values (wallets self))) /\
    Dashboard.total_spent report
    = Models.sum (map total_spent (Dict.values (wallets self))) /\
    Forall2 (fun w s => WalletSummary.balance_in_target s = balance w /\
                        WalletSummary.total_spent_in_target s = total_spent w)
      (Dict.values (wallets self)) (Dashboard.wallets report).
Proof.
  intros Ht Hws. rewrite consolidated_dashboard_run.
  rewrite (validate_supported _ Ht). simpl.
  destruct (dashboard_loop_same_currency target _ Ht Hws 0.0%float 0.0%float [])
    as (sums & Hloop & Hall).
  rewrite Hloop. simpl. eexists. split; [reflexivity|]. simpl.
  repeat split. exact Hall.
Qed.

End ReportFacts.

Lemma wallet_report_in_target_witness :
  let travel := {| Models.name := "Travel"; Models.currency := "EUR";
                   Models.balance := 300%float;
                   Models.expenses :=
                     [ {| Models.description := "Hotel";
                          Models.amount := 200%float;
                          Models.category := "lodging" |} ] |} in
  fst (Manager.get_wallet Api.str_lower "Travel" SampleData.create_sample_manager)
  = Ok travel /\
  "USD" <> "" /\
  exists report : WalletReport.t,
    Manager.wallet_report Api.str_lower "Travel" (Some "USD")
      SampleData.create_sample_manager
    = (Ok report, SampleData.create_sample_manager) /\
    Forall2 (Facts.reports "EUR" "USD") (Models.expenses travel)
      (WalletReport.expenses report) /\
    WalletReport.target_currency report = "USD".
Proof.
  intros travel.
  assert (Hget : fst (Manager.get_wallet Api.str_lower "Travel"
                        SampleData.create_sample_manager) = Ok travel)
    by reflexivity.
  assert (Hne : "USD" <> "") by discriminate.
  split; [exact Hget|]. split; [exact Hne|].
  destruct (proj1 (wallet_report_in_target Api.str_lower
                     SampleData.create_sample_manager "Travel" "USD" travel
                     Hget Hne))
    as (report & Hrep & _ & _ & _ & _ & Hlines & Htarget).
  - in_table.
  - in_table.
  - exists report. split; [exact Hrep|]. split; [exact Hlines | exact Htarget].
Defined.

Lemma dashboard_in_common_currency_witness :
  let self := {| Manager.wallets :=
                   [("a", {| Models.name := "A"; Models.currency := "EUR";
                             Models.balance := 0.1%float;
                             Models.expenses := [] |});
                    ("b", {| Models.name := "B"; Models.currency := "EUR";
                             Models.balance := 0.2%float;
                             Models.expenses := [] |})] |} in
  Currency.supported "EUR" /\
  exists report : Dashboard.t,
    Manager.consolidated_dashboard "EUR" self = (Ok report, self) /\
    Dashboard.total_balance report = (0.0 + 0.1 + 0.2)%float.
Proof.
  intros self.
  assert (He : Currency.supported "EUR") by in_table.
  split; [exact He|].
  destruct (dashboard_in_common_currency self "EUR" He)
    as (report & Hrep & Hbal & _).
  - repeat constructor.
  - exists report. split; [exact Hrep|]. rewrite Hbal. reflexivity.
Defined.

(** ** manager.py: what the operations do to the registry *)

Section RegistryHistory.
Import Models Manager Api Facts.
Variable lower : string -> string.

(** X13. [get_wallet], [list_wallets], [to_dict], [consolidated_dashboard]
    and [wallet_report] only read: whether the call returns or raises, the
    manager after it is the manager before it. *)
Theorem query_keeps_manager (op : operation) (self : ExpenseManager) :
  is_query op = true -> snd (call lower op self) = self.
Proof.
  intros H. rewrite call_state. destruct op; try reflexivity; discriminate.
Qed.

Lemma dict_get_app_l {V : Type} (d d' : list (string * V)) (k : string) (v : V) :
  Dict.get d k = Some v -> Dict.get (d ++ d') k = Some v.
Proof.
  induction d as [|[k0 v0] rest IH]; simpl; [discriminate|].
  destruct (String.eqb k k0); [auto | exact IH].
Qed.

Lemma lives_on_refl (registry : list (string * Wallet)) : lives_on registry registry.
Proof.
  intros key w H. exists w, []. rewrite app_nil_r. auto.
Qed.

Lemma lives_on_trans (r1 r2 r3 : list (string * Wallet)) :
  lives_on r1 r2 -> lives_on r2 r3 -> lives_on r1 r3.
Proof.
  intros H12 H23 key w H.
  destruct (H12 key w H) as (w2 & add2 & Hg2 & Hn2 & Hc2 & He2).
  destruct (H23 key w2 Hg2) as (w3 & add3 & Hg3 & Hn3 & Hc3 & He3).
  exists w3, (add2 ++ add3). split; [exact Hg3|].
  split; [congruence|]. split; [congruence|].
  now rewrite He3, He2, app_assoc.
Qed.

Lemma call_lives_on (op : operation) (self : ExpenseManager) :
  lives_on (wallets self) (wallets (snd (call lower op self))).
Proof.
  rewrite call_state.
  destruct op as [name currency balance | name | | wallet_name description
                  amount category | | target_currency
                 | wallet_name target_currency]; try apply lives_on_refl.
  - rewrite create_wallet_run.
    destruct (Dict.get (wallets self) (lower name)); [apply lives_on_refl|].
    destruct (Currency.validate_currency currency); [|apply lives_on_refl].
    simpl. intros key w H. exists w, []. rewrite app_nil_r.
    split; [now apply dict_get_app_l | auto].
  - rewrite add_expense_run. simpl.
    destruct (Dict.get (wallets self) (lower wallet_name)) as [w0|] eqn:E;
      [|apply lives_on_refl].
    simpl. intros key w H.
    destruct (String.eqb_spec key (lower wallet_name)) as [->|Hne].
    + assert (w = w0) by congruence. subst w0.
      eexists. eexists. rewrite dict_get_set_same.
      split; [reflexivity|]. repeat split.
    + exists w, []. rewrite app_nil_r, dict_get_set_other by exact Hne. auto.
Qed.

(** X14. No sequence of operations forgets anything: after any calls on the
    manager, failed ones included, every wallet that was registered is still
    registered under its key with the name and the currency it had, and the
    expenses it had are the first of the expenses it has, in the same
    order. Wallets and expenses are only ever added. *)
Theorem calls_keep_history (ops : list operation) (self : ExpenseManager) :
  lives_on (wallets self)
    (wallets (fold_left (fun s op => snd (call lower op s)) ops self)).
Proof.
  revert self. induction ops as [|op ops IH]; intros self; simpl.
  - apply lives_on_refl.
  - eapply lives_on_trans; [apply call_lives_on | apply IH].
Qed.

End RegistryHistory.

Lemma query_keeps_manager_witness :
  Facts.is_query (Api.ConsolidatedDashboard "XYZ") = true /\
  fst (Api.call Api.str_lower (Api.ConsolidatedDashboard "XYZ")
         SampleData.create_sample_manager)
  = Raise (CurrencyNotSupportedError "XYZ") /\
  snd (Api.call Api.str_lower (Api.ConsolidatedDashboard "XYZ")
         SampleData.create_sample_manager)
  = SampleData.create_sample_manager.
Proof.
  split; [reflexivity|]. split; [reflexivity|].
  apply (query_keeps_manager Api.str_lower (Api.ConsolidatedDashboard "XYZ")).
  reflexivity.
Defined.

(** ** cli.py: runs of the program on the data file *)

Section CommandLine.
Import Models Manager Api Cli.
Variable lower : string -> string.
Variable upper : string -> string.

Ltac run_main :=
  unfold main, io_bind, io_ret, io_lift, _load_manager, _persist, invoke,
    Storage.save_data;
  repeat match goal with
         | |- context [match ?x with _ => _ end] =>
             lazymatch x with
             | context [match _ with _ => _ end] => fail
             | _ => destruct x; simpl
             end
         end.

(** X15. A run that only reads ([list-wallets], [dashboard], [preview],
    [wallet-report], [supported-currencies]) leaves the data file as it is,
    and so does every run that ends in an exception: [create-wallet] and
    [add-expense] write the file only after the manager accepted the
    change. *)
Theorem main_leaves_file (args : command) (file : option json) :
  is_query args = true \/ (exists e, fst (main lower upper args file) = Raise e) ->
  snd (main lower upper args file) = file.
Proof.
  intros [Hq|[e He]].
  - destruct args as [| | | |c [|]| |]; try discriminate; clear Hq;
      run_main; reflexivity.
  - revert He. destruct args as [| | | |c [|]| |]; run_main; intros;
      try reflexivity; discriminate.
Qed.

(** X16. [preview] is [dashboard] on the upper-cased code: run on the same
    data file, [preview --currency c] prints the target [c.upper()] and the
    three totals of the dashboard that [dashboard c.upper()] prints, and it
    dies of the same exception when that one does. *)
Theorem preview_is_dashboard_of_upper (currency : string) (file : option json) :
  fst (main lower upper (preview_cmd currency false) file) =
  match fst (main lower upper (dashboard_cmd (upper currency)) file) with
  | Ok (PDashboard d) =>
      Ok (PPreview (upper currency) (Dashboard.total_balance d)
            (Dashboard.total_spent d) (Dashboard.net_position d) false)
  | Ok other => Ok other
  | Raise e => Raise e
  end.
Proof. run_main; reflexivity. Qed.

(** X17. [preview --demo] neither reads nor writes the data file: it prints
    the same for every data file, an unreadable one included, and leaves
    the file as it is. *)
Theorem demo_preview_ignores_file (currency : string) (file file' : option json) :
  fst (main lower upper (preview_cmd currency true) file)
  = fst (main lower upper (preview_cmd currency true) file') /\
  snd (main lower upper (preview_cmd currency true) file) = file.
Proof. split; run_main; reflexivity. Qed.

Lemma init_of_to_dict (self : ExpenseManager) :
  well_keyed lower (wallets self) ->
  __init__ lower
    (JDict [("wallets", JList (map wallet_to_dict (Dict.values (wallets self))))])
  = Ok self.
Proof.
  intros Hwk. unfold __init__. simpl.
  rewrite (load_wallets_ok lower _ _ [] (parse_all_to_dict _)). simpl.
  rewrite (register_all_values lower (wallets self) [] Hwk).
  destruct self. reflexivity.
Qed.

(** X18. What [create-wallet] writes is what the next run reads: when
    [create-wallet name currency --balance b] succeeds on a data file, it
    prints that the wallet was created, and [list-wallets] on the file it
    leaves prints the rows that [list-wallets] printed on the file before,
    followed by one row for the new wallet with its name, currency and
    balance and with no expenses. *)
Theorem list_wallets_after_create_wallet (name currency : string) (balance : float)
  (file file' : option json) (out : printed) :
  main lower upper (create_wallet_cmd name currency balance) file = (Ok out, file') ->
  out = PMessage (String.append "Wallet '" (String.append name "' created.")) /\
  exists rows : list WalletRow,
    fst (main lower upper list_wallets_cmd file) = Ok (PWallets rows) /\
    fst (main lower upper list_wallets_cmd file')
    = Ok (PWallets (rows ++ [ {| row_name := name; row_currency := currency;
                                 row_balance := balance; row_expenses := 0 |} ])).
Proof.
  unfold main, io_bind, io_ret, io_lift, _load_manager, _persist, invoke,
    Storage.save_data.
  destruct (__init__ lower (Storage.load_data file)) as [m|e] eqn:Hinit;
    [|discriminate].
  pose proof (init_well_keyed lower _ _ Hinit) as Hwk.
  rewrite create_wallet_run.
  destruct (Dict.get (wallets m) (lower name)) as [w|] eqn:E; [discriminate|].
  destruct (Currency.validate_currency currency); [|discriminate].
  simpl. intros [= <- <-]. split; [reflexivity|].
  exists (map wallet_row (Dict.values (wallets m))).
  split; [reflexivity|].
  set (wallet := {| Models.name := name; Models.currency := currency;
                    Models.balance := balance; expenses := [] |}).
  set (m' := {| wallets := wallets m ++ [(lower name, wallet)] |}).
  assert (Hwk' : well_keyed lower (wallets m')).
  { unfold m'. simpl. rewrite <- (dict_set_fresh _ _ wallet E).
    exact (well_keyed_set lower _ wallet Hwk). }
  unfold Storage.load_data.
  change (JDict [("wallets", JList (map wallet_to_dict
                                      (Dict.values (wallets m ++ [(lower name, wallet)]))))])
    with (JDict [("wallets", JList (map wallet_to_dict (Dict.values (wallets m'))))]).
  rewrite (init_of_to_dict m' Hwk'). simpl.
  unfold Dict.values. now rewrite !map_app.
Qed.

End CommandLine.

Lemma main_leaves_file_witness :
  let file := Some SampleData.load_demo_data in
  fst (Cli.main Api.str_lower Cli.str_upper
         (Cli.create_wallet_cmd "PERSONAL" "USD" 0%float) file)
  = Raise (WalletExistsError "PERSONAL") /\
  snd (Cli.main Api.str_lower Cli.str_upper
         (Cli.create_wallet_cmd "PERSONAL" "USD" 0%float) file) = file.
Proof.
  intros file. split; [reflexivity|].
  apply (main_leaves_file Api.str_lower Cli.str_upper
           (Cli.create_wallet_cmd "PERSONAL" "USD" 0%float) file).
  right. eexists. reflexivity.
Defined.

Lemma preview_is_dashboard_of_upper_witness :
  let file := Some SampleData.load_demo_data in
  fst (Cli.main Api.str_lower Cli.str_upper (Cli.dashboard_cmd "usd") file)
  = Raise (CurrencyNotSupportedError "usd") /\
  fst (Cli.main Api.str_lower Cli.str_upper (Cli.preview_cmd "usd" false) file)
  = Ok (Cli.PPreview "USD" 2457.7639751552797%float 1067.391304347826%float
          1390.3726708074537%float false).
Proof.
  intros file. split; [reflexivity|].
  rewrite (preview_is_dashboard_of_upper Api.str_lower Cli.str_upper "usd" file).
  vm_compute. reflexivity.
Defined.

Lemma list_wallets_after_create_wallet_witness :
  exists (out : Cli.printed) (file' : option json) (rows : list Cli.WalletRow),
    Cli.main Api.str_lower Cli.str_upper
      (Cli.create_wallet_cmd "Cash" "GBP" 40%float) None = (Ok out, file') /\
    fst (Cli.main Api.str_lower Cli.str_upper Cli.list_wallets_cmd None)
    = Ok (Cli.PWallets rows) /\
    fst (Cli.main Api.str_lower Cli.str_upper Cli.list_wallets_cmd file')
    = Ok (Cli.PWallets
            (rows ++ [ {| Cli.row_name := "Cash"; Cli.row_currency := "GBP";
                          Cli.row_balance := 40%float;
                          Cli.row_expenses := 0 |} ])).
Proof.
  eexists. eexists.
  assert (H : Cli.main Api.str_lower Cli.str_upper
                (Cli.create_wallet_cmd "Cash" "GBP" 40%float) None
              = (Ok (Cli.PMessage "Wallet 'Cash' created."),
                 Some (JDict [("wallets",
                               JList [Manager.wallet_to_dict
                                        {| Models.name := "Cash";
                                           Models.currency := "GBP";
                                           Models.balance := 40%float;
                                           Models.expenses := [] |}])])))
    by reflexivity.
  destruct (list_wallets_after_create_wallet Api.str_lower Cli.str_upper
              _ _ _ _ _ _ H) as (_ & rows & H1 & H2).
  exists rows. split; [exact H|]. split; [exact H1 | exact H2].
Defined.
